(** * react-redux: derived-props memoisation and the useSelector hook

    A shallow embedding of three source files of the repository:

    - [connect/wrapMapToProps.js]  (the MapToProps adapter),
    - [connect/mergeProps.js] and [connect/selectorFactory.js]
      (the merge wrapper and the final-props selector pipeline),
    - [hooks/useSelector.js]       (the derived-state reader).

    JavaScript closures that own mutable variables become records that are
    threaded through the functions; every call of a user-supplied function
    is recorded in a call log carried by that record, so that "is invoked",
    "is not invoked" and "is invoked exactly once" are statements about
    the log.  User-supplied mapping, merging and comparison functions are
    functions that return; the selector handed to [useSelector], which the
    source guards with try/catch, either returns or throws. *)

From Stdlib Require Import ZArith List String Ascii Bool Arith Lia.
From Stdlib Require Import DecimalString.
Import ListNotations.


(* ================================================================== *)
(** * JavaScript values *)
(* ================================================================== *)

Module Js.

(** Objects and functions are references: [===] compares their address,
    not their contents.  A function value is the address of a function
    object; what the object does is found in a function table. *)
#[warnings="-register-all"]
Inductive value : Type :=
| VUndefined
| VNull
| VBool (b : bool)
| VNum (n : Z)
| VNaN
| VStr (s : string)
| VObj (ref : nat) (fields : list (string * value))
| VFun (ref : nat).

(** [Boolean(v)], also the test of [if (v)] and of [!v]. *)
Definition Boolean (v : value) : bool :=
  match v with
  | VUndefined | VNull | VNaN => false
  | VBool b => b
  | VNum n => negb (n =? 0)%Z
  | VStr s => negb (s =? "")%string
  | VObj _ _ | VFun _ => true
  end.

(** [a === b] *)
Definition strict_eq (a b : value) : bool :=
  match a, b with
  | VUndefined, VUndefined => true
  | VNull, VNull => true
  | VBool x, VBool y => Bool.eqb x y
  | VNum x, VNum y => (x =? y)%Z
  | VStr x, VStr y => (x =? y)%string
  | VObj r _, VObj r' _ => r =? r'
  | VFun r, VFun r' => r =? r'
  | _, _ => false
  end.

(** [typeof v === 'function'] *)
Definition is_function (v : value) : bool :=
  match v with VFun _ => true | _ => false end.

(** [v !== null] and [v !== undefined] *)
Definition is_null (v : value) : bool :=
  match v with VNull => true | _ => false end.
Definition is_undefined (v : value) : bool :=
  match v with VUndefined => true | _ => false end.

(** Formal parameters of a function declaration.  The [length] of a
    function counts the parameters that come before the first one with
    a default value or the rest parameter. *)
Inductive formal : Type := Plain | Defaulted | Rest.

Fixpoint expected_argument_count (ps : list formal) : nat :=
  match ps with
  | Plain :: ps' => S (expected_argument_count ps')
  | _ => 0
  end.

(** A user-supplied function object: its parameter list, the value of
    its own property [dependsOnOwnProps] ([VUndefined] when it has
    none), and what it returns for a list of actual arguments. *)
Record func : Type := MkFunc {
  fn_formals : list formal;
  fn_dependsOnOwnProps : value;
  fn_body : list value -> value
}.

Definition fn_length (f : func) : nat :=
  expected_argument_count (fn_formals f).

(** One recorded call: which function object, with which arguments. *)
Record call : Type := Call {
  callee : nat;
  arguments : list value
}.

End Js.

Import Js.

(* ================================================================== *)
(** * connect/wrapMapToProps.js *)
(* ================================================================== *)

Module WrapMapToProps.

(** [getDependsOnOwnProps(mapToProps)] *)
Definition getDependsOnOwnProps (mapToProps : func) : bool :=
  if negb (is_null (fn_dependsOnOwnProps mapToProps))
     && negb (is_undefined (fn_dependsOnOwnProps mapToProps))
  then Boolean (fn_dependsOnOwnProps mapToProps)
  else negb (fn_length mapToProps =? 1).

(** What the property [proxy.mapToProps] holds: the function
    [detectFactoryAndVerify] installed at creation, or a user
    function. *)
Inductive slot : Type :=
| DetectFactoryAndVerify
| UserFunction (ref : nat).

(** The two mutable properties of the function object [proxy]. *)
Record proxy : Type := MkProxy {
  mapToProps : slot;
  dependsOnOwnProps : bool
}.

(** A diagnostic written by [verifyPlainObject]. *)
Record warning : Type := Warning {
  w_methodName : string;
  w_displayName : string
}.

(** The adapter: the proxy object, the log of calls made to user
    functions, and the diagnostics printed so far. *)
Record adapter : Type := MkAdapter {
  the_proxy : proxy;
  calls : list call;
  console : list warning
}.

(** State monad over the adapter; [None] is a call nest deeper than the
    fuel allows. *)
Definition M (A : Type) : Type := adapter -> option (A * adapter).

Definition ret {A} (a : A) : M A := fun w => Some (a, w).

Definition bind {A B} (c : M A) (k : A -> M B) : M B :=
  fun w => match c w with
           | Some (a, w') => k a w'
           | None => None
           end.

Definition out_of_fuel {A} : M A := fun _ => None.

Declare Scope adapter_scope.
Delimit Scope adapter_scope with adapter.
Notation "x <- c1 ;; c2" := (bind c1 (fun x => c2))
  (at level 61, c1 at next level, right associativity) : adapter_scope.
Notation "c1 ;; c2" := (bind c1 (fun _ => c2))
  (at level 61, right associativity) : adapter_scope.
Local Open Scope adapter_scope.

Definition gets {A} (f : proxy -> A) : M A :=
  fun w => Some (f (the_proxy w), w).

Definition set_mapToProps (s : slot) : M unit :=
  fun w => Some (tt, MkAdapter (MkProxy s (dependsOnOwnProps (the_proxy w)))
                               (calls w) (console w)).

Definition set_dependsOnOwnProps (b : bool) : M unit :=
  fun w => Some (tt, MkAdapter (MkProxy (mapToProps (the_proxy w)) b)
                               (calls w) (console w)).

Definition warn (msg : warning) : M unit :=
  fun w => Some (tt, MkAdapter (the_proxy w) (calls w) (console w ++ [msg])).

Section Adapter.

(** The function objects reachable from the wrapped function. *)
Variable funs : nat -> func.

(** The arguments of [wrapMapToPropsFunc] and [initProxySelector],
    and whether [process.env.NODE_ENV] is ['production']. *)
Variable wrapped : nat.
Variable methodName displayName : string.
Variable production : bool.

(** Calling the user function at [ref]: the call is logged, the
    result is what its body gives. *)
Definition call_function (ref : nat) (args : list value) : M value :=
  fun w => Some (fn_body (funs ref) args,
                 MkAdapter (the_proxy w) (calls w ++ [Call ref args])
                           (console w)).

(** Modelled from the spec: [utils/verifyPlainObject] is not among the
    sources.  It reports a value that is not a plain key-value
    mapping on the diagnostic channel and does nothing else. *)
Definition verifyPlainObject (v : value) (displayName methodName : string)
  : M unit :=
  match v with
  | VObj _ _ => ret tt
  | _ => warn (Warning methodName displayName)
  end.

(** The body of [detectFactoryAndVerify]; [proxy] is the function
    object it closes over. *)
Definition detectFactoryAndVerify (proxy : value -> value -> M value)
           (stateOrDispatch ownProps : value) : M value :=
  set_mapToProps (UserFunction wrapped) ;;
  set_dependsOnOwnProps (getDependsOnOwnProps (funs wrapped)) ;;
  props <- proxy stateOrDispatch ownProps ;;
  props <- match props with
           | VFun f =>
               (* typeof props === 'function' *)
               set_mapToProps (UserFunction f) ;;
               set_dependsOnOwnProps (getDependsOnOwnProps (funs f)) ;;
               proxy stateOrDispatch ownProps
           | _ => ret props
           end ;;
  (if negb production
   then verifyPlainObject props displayName methodName
   else ret tt) ;;
  ret props.

(** [mapToPropsProxy], the function object [proxy].  A missing
    argument reads as [undefined] in the callee. *)
Fixpoint mapToPropsProxy (fuel : nat) (stateOrDispatch ownProps : value)
  : M value :=
  match fuel with
  | O => out_of_fuel
  | S fuel' =>
      let proxy_mapToProps (args : list value) : M value :=
        s <- gets mapToProps ;;
        match s with
        | UserFunction f => call_function f args
        | DetectFactoryAndVerify =>
            detectFactoryAndVerify (mapToPropsProxy fuel')
              (nth 0 args VUndefined) (nth 1 args VUndefined)
        end in
      depends <- gets dependsOnOwnProps ;;
      if depends
      then proxy_mapToProps [stateOrDispatch; ownProps]
      else proxy_mapToProps [stateOrDispatch]
  end.

(** [initProxySelector]: the adapter as it is handed out. *)
Definition initProxySelector : adapter :=
  MkAdapter (MkProxy DetectFactoryAndVerify true) [] [].

(** Successive invocations of the same proxy. *)
Fixpoint invocations (fuel : nat) (inputs : list (value * value))
         (w : adapter) : option (list value * adapter) :=
  match inputs with
  | [] => Some ([], w)
  | (x, own) :: rest =>
      match mapToPropsProxy fuel x own w with
      | Some (v, w') =>
          match invocations fuel rest w' with
          | Some (vs, w'') => Some (v :: vs, w'')
          | None => None
          end
      | None => None
      end
  end.

End Adapter.

(** [wrapMapToPropsConstant(getConstant)]: [initConstantSelector] computes
    the constant once; the selector it returns ignores its arguments and
    carries [dependsOnOwnProps = false]. *)
Record constantSelector : Type := MkConstantSelector {
  constant : value;
  constantSelector_dependsOnOwnProps : bool
}.

Definition initConstantSelector (getConstant : value -> value)
           (dispatch : value) : constantSelector :=
  MkConstantSelector (getConstant dispatch) false.

End WrapMapToProps.

(* ================================================================== *)
(** * A state monad for the closures below *)
(* ================================================================== *)

Module Stateful.

Definition St (W A : Type) : Type := W -> A * W.

Definition ret {W A} (a : A) : St W A := fun w => (a, w).

Definition bind {W A B} (c : St W A) (k : A -> St W B) : St W B :=
  fun w => let (a, w') := c w in k a w'.

Definition gets {W A} (f : W -> A) : St W A := fun w => (f w, w).

Definition modify {W} (f : W -> W) : St W unit := fun w => (tt, f w).

Definition when {W} (b : bool) (c : St W unit) : St W unit :=
  if b then c else ret tt.

Declare Scope st_scope.
Delimit Scope st_scope with st.
Notation "x <- c1 ;; c2" := (bind c1 (fun x => c2))
  (at level 61, c1 at next level, right associativity) : st_scope.
Notation "c1 ;; c2" := (bind c1 (fun _ => c2))
  (at level 61, right associativity) : st_scope.

End Stateful.

(* ================================================================== *)
(** * connect/mergeProps.js *)
(* ================================================================== *)

Module MergeProps.
Import Stateful.
Local Open Scope st_scope.

(** The variables [hasRunOnce] and [mergedProps] that [mergePropsProxy]
    closes over, with the log of calls to the user's [mergeProps] and the
    diagnostics printed. *)
Record wrapper : Type := MkWrapper {
  hasRunOnce : bool;
  mergedProps : value;
  calls : list call;
  console : list WrapMapToProps.warning
}.

Definition set_hasRunOnce (b : bool) : St wrapper unit :=
  modify (fun w => MkWrapper b (mergedProps w) (calls w) (console w)).

Definition set_mergedProps (v : value) : St wrapper unit :=
  modify (fun w => MkWrapper (hasRunOnce w) v (calls w) (console w)).

Section Wrapper.

Variable funs : nat -> func.

(** The argument of [wrapMergePropsFunc], the options read by
    [initMergePropsProxy], and whether the build is a production one. *)
Variable mergeProps : nat.
Variable displayName : string.
Variable pure : bool.
Variable areMergedPropsEqual : value -> value -> bool.
Variable production : bool.

Definition call_mergeProps (args : list value) : St wrapper value :=
  fun w => (fn_body (funs mergeProps) args,
            MkWrapper (hasRunOnce w) (mergedProps w)
                      (calls w ++ [Call mergeProps args]) (console w)).

(** Modelled from the spec: [utils/verifyPlainObject] is not among the
    sources; it only reports a value that is not a plain mapping. *)
Definition verifyPlainObject (v : value) (displayName methodName : string)
  : St wrapper unit :=
  match v with
  | VObj _ _ => ret tt
  | _ => modify (fun w => MkWrapper (hasRunOnce w) (mergedProps w) (calls w)
                   (console w ++ [WrapMapToProps.Warning methodName displayName]))
  end.

(** [initMergePropsProxy]: the closure before its first call. *)
Definition initMergePropsProxy : wrapper :=
  MkWrapper false VUndefined [] [].

(** [mergePropsProxy(stateProps, dispatchProps, ownProps)] *)
Definition mergePropsProxy (stateProps dispatchProps ownProps : value)
  : St wrapper value :=
  nextMergedProps <- call_mergeProps [stateProps; dispatchProps; ownProps] ;;
  ran <- gets hasRunOnce ;;
  (if ran
   then
     cached <- gets mergedProps ;;
     when (negb pure || negb (areMergedPropsEqual nextMergedProps cached))
          (set_mergedProps nextMergedProps)
   else
     set_hasRunOnce true ;;
     set_mergedProps nextMergedProps ;;
     when (negb production)
          (cached <- gets mergedProps ;;
           verifyPlainObject cached displayName "mergeProps")) ;;
  gets mergedProps.

End Wrapper.

End MergeProps.

(* ================================================================== *)
(** * connect/selectorFactory.js *)
(* ================================================================== *)

Module SelectorFactory.
Import Stateful.
Local Open Scope st_scope.

(** What the selector factories need from [mapStateToProps] and
    [mapDispatchToProps]: an object that can be called with two arguments,
    may change when called, and has a property [dependsOnOwnProps]. *)
Class MapToProps (F : Type) : Type := {
  invoke : F -> value -> value -> value * F;
  get_dependsOnOwnProps : F -> value
}.

(** What they need from [mergeProps]: an object that can be called with
    three arguments and may change when called. *)
Class Merge (G : Type) : Type := {
  invoke_merge : G -> value -> value -> value -> value * G
}.

(** A call made by a final-props selector. *)
Inductive invocation : Type :=
| MapStateToProps (state ownProps : value)
| MapDispatchToProps (dispatch ownProps : value)
| MergeProps (stateProps dispatchProps ownProps : value).

(** Which of the three functions a call went to. *)
Inductive callee_kind : Type := KMapState | KMapDispatch | KMerge.

Definition kind (i : invocation) : callee_kind :=
  match i with
  | MapStateToProps _ _ => KMapState
  | MapDispatchToProps _ _ => KMapDispatch
  | MergeProps _ _ _ => KMerge
  end.

Section Factory.

Context {MS MD MG : Type}.
Context `{MapToProps MS} `{MapToProps MD} `{Merge MG}.

(** The variables of [pureFinalPropsSelectorFactory]: the six it declares
    with [let], the three function objects it receives, and the log of
    the calls made to them. *)
Record closure : Type := MkClosure {
  hasRunAtLeastOnce : bool;
  state : value;
  ownProps : value;
  stateProps : value;
  dispatchProps : value;
  mergedProps : value;
  mapStateToProps : MS;
  mapDispatchToProps : MD;
  mergeProps : MG;
  log : list invocation
}.

Definition set_hasRunAtLeastOnce (b : bool) : St closure unit :=
  modify (fun c => MkClosure b (state c) (ownProps c) (stateProps c)
    (dispatchProps c) (mergedProps c) (mapStateToProps c)
    (mapDispatchToProps c) (mergeProps c) (log c)).

Definition set_state (v : value) : St closure unit :=
  modify (fun c => MkClosure (hasRunAtLeastOnce c) v (ownProps c)
    (stateProps c) (dispatchProps c) (mergedProps c) (mapStateToProps c)
    (mapDispatchToProps c) (mergeProps c) (log c)).

Definition set_ownProps (v : value) : St closure unit :=
  modify (fun c => MkClosure (hasRunAtLeastOnce c) (state c) v
    (stateProps c) (dispatchProps c) (mergedProps c) (mapStateToProps c)
    (mapDispatchToProps c) (mergeProps c) (log c)).

Definition set_stateProps (v : value) : St closure unit :=
  modify (fun c => MkClosure (hasRunAtLeastOnce c) (state c) (ownProps c)
    v (dispatchProps c) (mergedProps c) (mapStateToProps c)
    (mapDispatchToProps c) (mergeProps c) (log c)).

Definition set_dispatchProps (v : value) : St closure unit :=
  modify (fun c => MkClosure (hasRunAtLeastOnce c) (state c) (ownProps c)
    (stateProps c) v (mergedProps c) (mapStateToProps c)
    (mapDispatchToProps c) (mergeProps c) (log c)).

Definition set_mergedProps (v : value) : St closure unit :=
  modify (fun c => MkClosure (hasRunAtLeastOnce c) (state c) (ownProps c)
    (stateProps c) (dispatchProps c) v (mapStateToProps c)
    (mapDispatchToProps c) (mergeProps c) (log c)).

(** [mapStateToProps(s, o)]: the call is logged and the function object
    is replaced by what it has become. *)
Definition call_mapStateToProps (s o : value) : St closure value :=
  fun c =>
    let (v, f) := invoke (mapStateToProps c) s o in
    (v, MkClosure (hasRunAtLeastOnce c) (state c) (ownProps c) (stateProps c)
          (dispatchProps c) (mergedProps c) f (mapDispatchToProps c)
          (mergeProps c) (log c ++ [MapStateToProps s o])).

(** [mapDispatchToProps(d, o)] *)
Definition call_mapDispatchToProps (d o : value) : St closure value :=
  fun c =>
    let (v, f) := invoke (mapDispatchToProps c) d o in
    (v, MkClosure (hasRunAtLeastOnce c) (state c) (ownProps c) (stateProps c)
          (dispatchProps c) (mergedProps c) (mapStateToProps c) f
          (mergeProps c) (log c ++ [MapDispatchToProps d o])).

(** [mergeProps(sp, dp, o)] *)
Definition call_mergeProps (sp dp o : value) : St closure value :=
  fun c =>
    let (v, g) := invoke_merge (mergeProps c) sp dp o in
    (v, MkClosure (hasRunAtLeastOnce c) (state c) (ownProps c) (stateProps c)
          (dispatchProps c) (mergedProps c) (mapStateToProps c)
          (mapDispatchToProps c) g (log c ++ [MergeProps sp dp o])).

(** The remaining arguments of the factories. *)
Variable dispatch : value.
Variable areStatesEqual areOwnPropsEqual areStatePropsEqual
  : value -> value -> bool.

(** [impureFinalPropsSelector(state, ownProps)]; the arguments of
    [mergeProps] are evaluated left to right. *)
Definition impureFinalPropsSelector (state ownProps : value)
  : St closure value :=
  sp <- call_mapStateToProps state ownProps ;;
  dp <- call_mapDispatchToProps dispatch ownProps ;;
  call_mergeProps sp dp ownProps.

(** The closure of [pureFinalPropsSelectorFactory] before any call. *)
Definition pureFinalPropsSelectorFactory (ms : MS) (md : MD) (mg : MG)
  : closure :=
  MkClosure false VUndefined VUndefined VUndefined VUndefined VUndefined
            ms md mg [].

Definition handleFirstCall (firstState firstOwnProps : value)
  : St closure value :=
  set_state firstState ;;
  set_ownProps firstOwnProps ;;
  s <- gets state ;; o <- gets ownProps ;;
  sp <- call_mapStateToProps s o ;;
  set_stateProps sp ;;
  o <- gets ownProps ;;
  dp <- call_mapDispatchToProps dispatch o ;;
  set_dispatchProps dp ;;
  sp <- gets stateProps ;; dp <- gets dispatchProps ;; o <- gets ownProps ;;
  mp <- call_mergeProps sp dp o ;;
  set_mergedProps mp ;;
  set_hasRunAtLeastOnce true ;;
  gets mergedProps.

Definition handleNewPropsAndNewState : St closure value :=
  s <- gets state ;; o <- gets ownProps ;;
  sp <- call_mapStateToProps s o ;;
  set_stateProps sp ;;
  depends <- gets (fun c => Boolean (get_dependsOnOwnProps (mapDispatchToProps c))) ;;
  when depends
       (o <- gets ownProps ;;
        dp <- call_mapDispatchToProps dispatch o ;;
        set_dispatchProps dp) ;;
  sp <- gets stateProps ;; dp <- gets dispatchProps ;; o <- gets ownProps ;;
  mp <- call_mergeProps sp dp o ;;
  set_mergedProps mp ;;
  gets mergedProps.

Definition handleNewProps : St closure value :=
  depends <- gets (fun c => Boolean (get_dependsOnOwnProps (mapStateToProps c))) ;;
  when depends
       (s <- gets state ;; o <- gets ownProps ;;
        sp <- call_mapStateToProps s o ;;
        set_stateProps sp) ;;
  depends <- gets (fun c => Boolean (get_dependsOnOwnProps (mapDispatchToProps c))) ;;
  when depends
       (o <- gets ownProps ;;
        dp <- call_mapDispatchToProps dispatch o ;;
        set_dispatchProps dp) ;;
  sp <- gets stateProps ;; dp <- gets dispatchProps ;; o <- gets ownProps ;;
  mp <- call_mergeProps sp dp o ;;
  set_mergedProps mp ;;
  gets mergedProps.

Definition handleNewState : St closure value :=
  s <- gets state ;; o <- gets ownProps ;;
  nextStateProps <- call_mapStateToProps s o ;;
  old <- gets stateProps ;;
  let statePropsChanged := negb (areStatePropsEqual nextStateProps old) in
  set_stateProps nextStateProps ;;
  when statePropsChanged
       (sp <- gets stateProps ;; dp <- gets dispatchProps ;; o <- gets ownProps ;;
        mp <- call_mergeProps sp dp o ;;
        set_mergedProps mp) ;;
  gets mergedProps.

Definition handleSubsequentCalls (nextState nextOwnProps : value)
  : St closure value :=
  o <- gets ownProps ;;
  let propsChanged := negb (areOwnPropsEqual nextOwnProps o) in
  s <- gets state ;;
  let stateChanged := negb (areStatesEqual nextState s) in
  set_state nextState ;;
  set_ownProps nextOwnProps ;;
  if propsChanged && stateChanged then handleNewPropsAndNewState
  else if propsChanged then handleNewProps
  else if stateChanged then handleNewState
  else gets mergedProps.

Definition pureFinalPropsSelector (nextState nextOwnProps : value)
  : St closure value :=
  ran <- gets hasRunAtLeastOnce ;;
  if ran
  then handleSubsequentCalls nextState nextOwnProps
  else handleFirstCall nextState nextOwnProps.

(** Successive calls of the same pure selector. *)
Fixpoint pureFinalPropsSelector_calls (inputs : list (value * value))
  : St closure (list value) :=
  match inputs with
  | [] => ret []
  | (s, o) :: rest =>
      v <- pureFinalPropsSelector s o ;;
      vs <- pureFinalPropsSelector_calls rest ;;
      ret (v :: vs)
  end.

End Factory.

Arguments closure MS MD MG : clear implicits.

(** The function objects [connect] builds and hands to the factories: a
    proxy made by [wrapMapToPropsFunc] together with what it closes
    over, a constant selector, and a proxy made by [wrapMergePropsFunc]. *)
Record proxy_object : Type := MkProxyObject {
  po_funs : nat -> func;
  po_wrapped : nat;
  po_methodName : string;
  po_displayName : string;
  po_production : bool;
  po_adapter : WrapMapToProps.adapter
}.

Definition call_proxy_object (p : proxy_object) (x own : value)
  : value * proxy_object :=
  match WrapMapToProps.mapToPropsProxy (po_funs p) (po_wrapped p)
          (po_methodName p) (po_displayName p) (po_production p)
          2 x own (po_adapter p) with
  | Some (v, a) => (v, MkProxyObject (po_funs p) (po_wrapped p)
                         (po_methodName p) (po_displayName p)
                         (po_production p) a)
  | None => (VUndefined, p)
  end.

#[global]
Instance MapToProps_proxy_object : MapToProps proxy_object := {
  invoke := call_proxy_object;
  get_dependsOnOwnProps p :=
    VBool (WrapMapToProps.dependsOnOwnProps
             (WrapMapToProps.the_proxy (po_adapter p)))
}.

#[global]
Instance MapToProps_constantSelector
  : MapToProps WrapMapToProps.constantSelector := {
  invoke c _ _ := (WrapMapToProps.constant c, c);
  get_dependsOnOwnProps c :=
    VBool (WrapMapToProps.constantSelector_dependsOnOwnProps c)
}.

Record merge_object : Type := MkMergeObject {
  mo_funs : nat -> func;
  mo_mergeProps : nat;
  mo_displayName : string;
  mo_pure : bool;
  mo_areMergedPropsEqual : value -> value -> bool;
  mo_production : bool;
  mo_wrapper : MergeProps.wrapper
}.

Definition call_merge_object (m : merge_object) (sp dp o : value)
  : value * merge_object :=
  let (v, w) := MergeProps.mergePropsProxy (mo_funs m) (mo_mergeProps m)
                  (mo_displayName m) (mo_pure m) (mo_areMergedPropsEqual m)
                  (mo_production m) sp dp o (mo_wrapper m) in
  (v, MkMergeObject (mo_funs m) (mo_mergeProps m) (mo_displayName m)
        (mo_pure m) (mo_areMergedPropsEqual m) (mo_production m) w).

#[global]
Instance Merge_merge_object : Merge merge_object := {
  invoke_merge := call_merge_object
}.

End SelectorFactory.

(* ================================================================== *)
(** * hooks/useSelector.js *)
(* ================================================================== *)

Module UseSelector.
Import Stateful.
Local Open Scope st_scope.

(** An [Error] object. *)
Record error : Type := MkError {
  message : string;
  stack : string
}.

(** How the call of a selector ends. *)
Inductive completion : Type :=
| Normal (v : value)
| Throw (e : error).

(** [const refEquality = (a, b) => a === b] *)
Definition refEquality (a b : value) : bool := strict_eq a b.

(** What a mounted consumer keeps between renders: the three refs (a ref
    created by [useRef()] holds [undefined], here [None] or [VUndefined]),
    the number of times [forceRender] was called, and the log of the calls
    made to selectors. *)
Record hook : Type := MkHook {
  latestSubscriptionCallbackError : option error;
  latestSelector : option nat;
  latestSelectedState : value;
  forceRender_calls : nat;
  selector_calls : list call
}.

Definition set_latestSubscriptionCallbackError (e : option error)
  : St hook unit :=
  modify (fun h => MkHook e (latestSelector h) (latestSelectedState h)
                          (forceRender_calls h) (selector_calls h)).

Definition set_latestSelector (s : option nat) : St hook unit :=
  modify (fun h => MkHook (latestSubscriptionCallbackError h) s
                          (latestSelectedState h) (forceRender_calls h)
                          (selector_calls h)).

Definition set_latestSelectedState (v : value) : St hook unit :=
  modify (fun h => MkHook (latestSubscriptionCallbackError h)
                          (latestSelector h) v (forceRender_calls h)
                          (selector_calls h)).

(** [forceRender({})] asks the renderer for one more render. *)
Definition forceRender : St hook unit :=
  modify (fun h => MkHook (latestSubscriptionCallbackError h)
                          (latestSelector h) (latestSelectedState h)
                          (S (forceRender_calls h)) (selector_calls h)).

(** [selector !== latestSelector.current] *)
Definition selector_differs (selector : nat) (latest : option nat) : bool :=
  match latest with
  | Some s => negb (selector =? s)
  | None => true
  end.

(** A line feed, written [\n] in the source. *)
Definition nl : string := String (ascii_of_nat 10) EmptyString.

Section Hook.

(** What each selector function object does when it is called. *)
Variable selectors : nat -> value -> completion.

(** The comparison passed to the hook. *)
Variable equalityFn : value -> value -> bool.

(** The stack trace the engine attaches to an error created with a given
    message, and the error raised by calling [undefined]. *)
Variable capture_stack : string -> string.
Variable not_a_function : error.

Definition new_Error (msg : string) : error :=
  MkError msg (capture_stack msg).

(** Calling a selector: the call is logged, whether it returns or
    throws. *)
Definition call_selector (selector : nat) (storeState : value)
  : St hook completion :=
  fun h => (selectors selector storeState,
            MkHook (latestSubscriptionCallbackError h) (latestSelector h)
                   (latestSelectedState h) (forceRender_calls h)
                   (selector_calls h ++ [Call selector [storeState]])).

(** The render pass of [useSelector(selector, equalityFn)]: the
    [try]/[catch] statement that computes [selectedState], ending in the
    [return] of the hook or in the [throw] of the handler.  [storeState]
    is what [store.getState()] gives during this render. *)
Definition useSelector (selector : nat) (storeState : value)
  : St hook completion :=
  prev <- gets latestSubscriptionCallbackError ;;
  latest <- gets latestSelector ;;
  attempt <- (if selector_differs selector latest
                 || match prev with Some _ => true | None => false end
              then call_selector selector storeState
              else cached <- gets latestSelectedState ;; ret (Normal cached)) ;;
  match attempt with
  | Normal selectedState => ret (Normal selectedState)
  | Throw err =>
      let errorMessage :=
        ("An error occured while selecting the store state: "
           ++ message err ++ ".")%string in
      prev <- gets latestSubscriptionCallbackError ;;
      let errorMessage :=
        match prev with
        | Some previous =>
            (errorMessage ++ nl
               ++ "The error may be correlated with this previous error:" ++ nl
               ++ stack previous ++ nl ++ nl ++ "Original stack trace:")%string
        | None => errorMessage
        end in
      ret (Throw (new_Error errorMessage))
  end.

(** The first layout effect, run at every commit of a render that
    returned [selectedState]. *)
Definition commit (selector : nat) (selectedState : value) : St hook unit :=
  set_latestSelector (Some selector) ;;
  set_latestSelectedState selectedState ;;
  set_latestSubscriptionCallbackError None.

(** [checkForUpdates()], the callback installed on the subscription.
    [storeState] is what [store.getState()] gives when it runs. *)
Definition checkForUpdates (storeState : value) : St hook unit :=
  returned <-
    (latest <- gets latestSelector ;;
     attempt <- match latest with
                | Some selector => call_selector selector storeState
                | None => ret (Throw not_a_function)
                end ;;
     match attempt with
     | Normal newSelectedState =>
         cached <- gets latestSelectedState ;;
         if equalityFn newSelectedState cached
         then ret true
         else set_latestSelectedState newSelectedState ;; ret false
     | Throw err =>
         set_latestSubscriptionCallbackError (Some err) ;; ret false
     end) ;;
  if returned then ret tt else forceRender.

(** The second layout effect, run when the consumer mounts: once the
    callback is installed it is called once. *)
Definition mount (storeState : value) : St hook unit :=
  checkForUpdates storeState.

(** The refs of a consumer that has not rendered yet. *)
Definition unmounted : hook := MkHook None None VUndefined 0 [].

End Hook.

(** [needle] occurs in [hay]. *)
Definition occurs_in (needle hay : string) : Prop :=
  exists before after : string, hay = (before ++ needle ++ after)%string.

End UseSelector.

(* ================================================================== *)
(** * Object properties and object spread *)
(* ================================================================== *)

Module JsObject.

(** The characters of a string as its index properties, from index [i]. *)
Fixpoint characters (i : nat) (s : string) : list (string * value) :=
  match s with
  | EmptyString => []
  | String c rest =>
      (NilEmpty.string_of_uint (Nat.to_uint i), VStr (String c EmptyString))
        :: characters (S i) rest
  end.

(** The own enumerable properties of a value, in order: the properties of
    an object, the characters of a string, the property
    [dependsOnOwnProps] of a function that has one; [null], [undefined],
    numbers and booleans have none. *)
Definition own_enumerable (funs : nat -> func) (v : value)
  : list (string * value) :=
  match v with
  | VObj _ fields => fields
  | VStr s => characters 0 s
  | VFun f =>
      match fn_dependsOnOwnProps (funs f) with
      | VUndefined => []
      | flag => [("dependsOnOwnProps"%string, flag)]
      end
  | _ => []
  end.

(** The value of a property in a property list. *)
Definition lookup (name : string) (fields : list (string * value))
  : option value :=
  match find (fun kv => (fst kv =? name)%string) fields with
  | Some kv => Some (snd kv)
  | None => None
  end.

(** Defining a property: an existing one keeps its place and takes the new
    value, a new one goes to the end.  The list is kept in the order of
    definition; that JavaScript enumerates integer-like names before the
    others is not followed, and nothing below depends on the order. *)
Fixpoint define (name : string) (v : value) (fields : list (string * value))
  : list (string * value) :=
  match fields with
  | [] => [(name, v)]
  | (name', v') :: rest =>
      if (name' =? name)%string
      then (name, v) :: rest
      else (name', v') :: define name v rest
  end.

(** [{ ...target, ...source }] on property lists. *)
Definition spread (target source : list (string * value))
  : list (string * value) :=
  fold_left (fun acc kv => define (fst kv) (snd kv) acc) source target.

End JsObject.

(* ================================================================== *)
(** * connect/mergeProps.js: the default merge and the two factories *)
(* ================================================================== *)

Module MergePropsFactories.
Import Stateful.
Local Open Scope st_scope.

(** [defaultMergeProps(stateProps, dispatchProps, ownProps)], the object
    literal [{ ...ownProps, ...stateProps, ...dispatchProps }] allocated at
    the address [fresh]. *)
Definition defaultMergeProps (funs : nat -> func) (fresh : nat)
           (stateProps dispatchProps ownProps : value) : value :=
  VObj fresh
       (JsObject.spread
          (JsObject.spread
             (JsObject.spread [] (JsObject.own_enumerable funs ownProps))
             (JsObject.own_enumerable funs stateProps))
          (JsObject.own_enumerable funs dispatchProps)).

(** What a factory of the default export returns when it applies: the
    [initMergePropsProxy] of [wrapMergePropsFunc(mergeProps)], or the
    function [() => defaultMergeProps]. *)
Inductive initMergeProps : Type :=
| InitMergePropsProxy (mergeProps : nat)
| InitDefaultMergeProps.

(** [whenMergePropsIsFunction(mergeProps)]; [None] is [undefined]. *)
Definition whenMergePropsIsFunction (mergeProps : value)
  : option initMergeProps :=
  match mergeProps with
  | VFun f => Some (InitMergePropsProxy f)
  | _ => None
  end.

(** [whenMergePropsIsOmitted(mergeProps)] *)
Definition whenMergePropsIsOmitted (mergeProps : value)
  : option initMergeProps :=
  if negb (Boolean mergeProps) then Some InitDefaultMergeProps else None.

(** The default export. *)
Definition factories : list (value -> option initMergeProps) :=
  [whenMergePropsIsFunction; whenMergePropsIsOmitted].

(** Successive calls of the same [mergePropsProxy]; an input is
    [(stateProps, dispatchProps, ownProps)]. *)
Fixpoint mergePropsProxy_calls (funs : nat -> func) (mergeProps : nat)
         (displayName : string) (pure : bool)
         (areMergedPropsEqual : value -> value -> bool) (production : bool)
         (inputs : list (value * value * value))
  : St MergeProps.wrapper (list value) :=
  match inputs with
  | [] => ret []
  | (sp, dp, o) :: rest =>
      v <- MergeProps.mergePropsProxy funs mergeProps displayName pure
             areMergedPropsEqual production sp dp o ;;
      vs <- mergePropsProxy_calls funs mergeProps displayName pure
              areMergedPropsEqual production rest ;;
      ret (v :: vs)
  end.

End MergePropsFactories.

(* ================================================================== *)
(** * connect/selectorFactory.js: the choice between the two factories *)
(* ================================================================== *)

Module FinalPropsSelectorFactory.
Import Stateful SelectorFactory.
Local Open Scope st_scope.

Section Choice.

Context {MS MD MG : Type}.
Context `{MapToProps MS} `{MapToProps MD} `{Merge MG}.

Variable dispatch : value.
Variable areStatesEqual areOwnPropsEqual areStatePropsEqual
  : value -> value -> bool.

(** The selector [finalPropsSelectorFactory] returns for [options.pure],
    once the three [init] functions have produced their function
    objects. *)
Definition finalPropsSelector (pure : bool) (state ownProps : value)
  : St (closure MS MD MG) value :=
  if pure
  then pureFinalPropsSelector dispatch areStatesEqual areOwnPropsEqual
         areStatePropsEqual state ownProps
  else impureFinalPropsSelector dispatch state ownProps.

(** Successive calls of the selector. *)
Fixpoint finalPropsSelector_calls (pure : bool)
         (inputs : list (value * value))
  : St (closure MS MD MG) (list value) :=
  match inputs with
  | [] => ret []
  | (s, o) :: rest =>
      v <- finalPropsSelector pure s o ;;
      vs <- finalPropsSelector_calls pure rest ;;
      ret (v :: vs)
  end.

End Choice.

(** How many calls of a log went to one of the three functions. *)
Definition kind_eqb (a b : callee_kind) : bool :=
  match a, b with
  | KMapState, KMapState => true
  | KMapDispatch, KMapDispatch => true
  | KMerge, KMerge => true
  | _, _ => false
  end.

Definition calls_to (k : callee_kind) (l : list invocation) : nat :=
  List.length (filter (fun i => kind_eqb (kind i) k) l).

End FinalPropsSelectorFactory.

(* ================================================================== *)
(** * hooks/useSelector.js: a run of store notifications *)
(* ================================================================== *)

Module Notifications.
Import Stateful UseSelector.
Local Open Scope st_scope.

(** The subscription calls [checkForUpdates] once for each store change;
    [storeStates] are the states [store.getState()] gives at these
    calls. *)
Fixpoint notifications (selectors : nat -> value -> completion)
         (equalityFn : value -> value -> bool) (not_a_function : error)
         (storeStates : list value) : St hook unit :=
  match storeStates with
  | [] => ret tt
  | s :: rest =>
      checkForUpdates selectors equalityFn not_a_function s ;;
      notifications selectors equalityFn not_a_function rest
  end.

End Notifications.

(* ================================================================== *)
(** * hooks/useSelector.js with any thrown value and any selector *)
(* ================================================================== *)

(** [UseSelector] above takes a selector to be a function of the store
    state that returns or throws an [Error] object.  A JavaScript selector
    may throw any value, [undefined] included, and may return another
    value each time it is called, a new object for instance.  This module
    embeds the same code for such selectors: what is thrown is a value
    whose truthiness the code tests, and what a call gives may depend on
    the calls made before it. *)
Module UseSelectorGeneral.
Import Stateful.
Local Open Scope st_scope.

(** A thrown value: an [Error] object, or any other value. *)
Inductive thrown : Type :=
| ThrownError (e : UseSelector.error)
| ThrownValue (v : value).

(** [Boolean(t)]: an [Error] object is truthy as every object is. *)
Definition truthy (t : thrown) : bool :=
  match t with
  | ThrownError _ => true
  | ThrownValue v => Boolean v
  end.

(** How the call of a selector ends. *)
Inductive outcome : Type :=
| Returns (v : value)
| Throws (t : thrown).

(** The refs of a consumer; [latestSubscriptionCallbackError] holds
    [undefined] ([None]) or whatever was thrown. *)
Record hook : Type := MkHook {
  latestSubscriptionCallbackError : option thrown;
  latestSelector : option nat;
  latestSelectedState : value;
  forceRender_calls : nat;
  selector_calls : list call
}.

(** The test [if (latestSubscriptionCallbackError.current)]. *)
Definition holds_error (current : option thrown) : bool :=
  match current with
  | Some t => truthy t
  | None => false
  end.

Definition set_latestSubscriptionCallbackError (t : option thrown)
  : St hook unit :=
  modify (fun h => MkHook t (latestSelector h) (latestSelectedState h)
                          (forceRender_calls h) (selector_calls h)).

Definition set_latestSelector (s : option nat) : St hook unit :=
  modify (fun h => MkHook (latestSubscriptionCallbackError h) s
                          (latestSelectedState h) (forceRender_calls h)
                          (selector_calls h)).

Definition set_latestSelectedState (v : value) : St hook unit :=
  modify (fun h => MkHook (latestSubscriptionCallbackError h)
                          (latestSelector h) v (forceRender_calls h)
                          (selector_calls h)).

Definition forceRender : St hook unit :=
  modify (fun h => MkHook (latestSubscriptionCallbackError h)
                          (latestSelector h) (latestSelectedState h)
                          (S (forceRender_calls h)) (selector_calls h)).

(** [v.name] for a value that is neither [undefined] nor [null]. *)
Definition get (name : string) (v : value) : value :=
  match v with
  | VObj _ fields =>
      match JsObject.lookup name fields with
      | Some x => x
      | None => VUndefined
      end
  | _ => VUndefined
  end.

Section Hook.

(** What the call of a selector gives, which may depend on the calls made
    to selectors before it. *)
Variable selectors : list call -> nat -> value -> outcome.

Variable equalityFn : value -> value -> bool.

(** What the engine supplies: the stack trace of a new error, the error
    raised by calling [undefined], the text of a value in a template
    literal, and the error raised by reading a property of [undefined] or
    [null]. *)
Variable capture_stack : string -> string.
Variable not_a_function : UseSelector.error.
Variable ToString : value -> string.
Variable cannot_read : string -> value -> UseSelector.error.

Definition new_Error (msg : string) : UseSelector.error :=
  UseSelector.MkError msg (capture_stack msg).

(** The text of [t.message] and of [t.stack] in a template literal, or
    the error that reading the property raises. *)
Definition message_text (t : thrown) : string + UseSelector.error :=
  match t with
  | ThrownError e => inl (UseSelector.message e)
  | ThrownValue VUndefined => inr (cannot_read "message" VUndefined)
  | ThrownValue VNull => inr (cannot_read "message" VNull)
  | ThrownValue v => inl (ToString (get "message" v))
  end.

Definition stack_text (t : thrown) : string + UseSelector.error :=
  match t with
  | ThrownError e => inl (UseSelector.stack e)
  | ThrownValue VUndefined => inr (cannot_read "stack" VUndefined)
  | ThrownValue VNull => inr (cannot_read "stack" VNull)
  | ThrownValue v => inl (ToString (get "stack" v))
  end.

Definition call_selector (selector : nat) (storeState : value)
  : St hook outcome :=
  fun h => (selectors (selector_calls h) selector storeState,
            MkHook (latestSubscriptionCallbackError h) (latestSelector h)
                   (latestSelectedState h) (forceRender_calls h)
                   (selector_calls h ++ [Call selector [storeState]])).

(** The render pass of [useSelector(selector, equalityFn)]. *)
Definition useSelector (selector : nat) (storeState : value)
  : St hook outcome :=
  prev <- gets latestSubscriptionCallbackError ;;
  latest <- gets latestSelector ;;
  attempt <- (if UseSelector.selector_differs selector latest
                 || holds_error prev
              then call_selector selector storeState
              else cached <- gets latestSelectedState ;; ret (Returns cached)) ;;
  match attempt with
  | Returns selectedState => ret (Returns selectedState)
  | Throws err =>
      match message_text err with
      | inr raised => ret (Throws (ThrownError raised))
      | inl text =>
          let errorMessage :=
            ("An error occured while selecting the store state: "
               ++ text ++ ".")%string in
          prev <- gets latestSubscriptionCallbackError ;;
          match prev with
          | Some previous =>
              if truthy previous
              then match stack_text previous with
                   | inr raised => ret (Throws (ThrownError raised))
                   | inl trace =>
                       ret (Throws (ThrownError (new_Error
                         (errorMessage ++ UseSelector.nl
                            ++ "The error may be correlated with this previous error:"
                            ++ UseSelector.nl ++ trace ++ UseSelector.nl
                            ++ UseSelector.nl ++ "Original stack trace:")%string)))
                   end
              else ret (Throws (ThrownError (new_Error errorMessage)))
          | None => ret (Throws (ThrownError (new_Error errorMessage)))
          end
      end
  end.

(** The first layout effect. *)
Definition commit (selector : nat) (selectedState : value) : St hook unit :=
  set_latestSelector (Some selector) ;;
  set_latestSelectedState selectedState ;;
  set_latestSubscriptionCallbackError None.

(** [checkForUpdates()]: whatever is thrown is stored as it is. *)
Definition checkForUpdates (storeState : value) : St hook unit :=
  returned <-
    (latest <- gets latestSelector ;;
     attempt <- match latest with
                | Some selector => call_selector selector storeState
                | None => ret (Throws (ThrownError not_a_function))
                end ;;
     match attempt with
     | Returns newSelectedState =>
         cached <- gets latestSelectedState ;;
         if equalityFn newSelectedState cached
         then ret true
         else set_latestSelectedState newSelectedState ;; ret false
     | Throws err =>
         set_latestSubscriptionCallbackError (Some err) ;; ret false
     end) ;;
  if returned then ret tt else forceRender.

End Hook.

(** A selector of [UseSelector] as a selector of this module, and the refs
    of the one as refs of the other. *)
Definition lift_completion (c : UseSelector.completion) : outcome :=
  match c with
  | UseSelector.Normal v => Returns v
  | UseSelector.Throw e => Throws (ThrownError e)
  end.

Definition lift_selectors (selectors : nat -> value -> UseSelector.completion)
  : list call -> nat -> value -> outcome :=
  fun _ selector storeState => lift_completion (selectors selector storeState).

Definition lift_hook (h : UseSelector.hook) : hook :=
  MkHook (match UseSelector.latestSubscriptionCallbackError h with
          | Some e => Some (ThrownError e)
          | None => None
          end)
         (UseSelector.latestSelector h) (UseSelector.latestSelectedState h)
         (UseSelector.forceRender_calls h) (UseSelector.selector_calls h).

(** The refs of a consumer that has not rendered yet. *)
Definition unmounted : hook := MkHook None None VUndefined 0 [].

End UseSelectorGeneral.

(* ================================================================== *)
(** * Vocabulary of the statements *)
(* ================================================================== *)

Module Spec.

(** The arguments a mapping function receives from the proxy for
    [(stateOrDispatch, ownProps)], given the proxy's flag. *)
Definition passed (dependsOnOwnProps : bool) (stateOrDispatch ownProps : value)
  : list value :=
  if dependsOnOwnProps then [stateOrDispatch; ownProps] else [stateOrDispatch].

(** The function a proxy ends up with: the function returned by the
    wrapped one when that is a function, the wrapped one otherwise. *)
Definition resolved (funs : nat -> func) (wrapped : nat)
           (stateOrDispatch ownProps : value) : nat :=
  match fn_body (funs wrapped)
          (passed (WrapMapToProps.getDependsOnOwnProps (funs wrapped))
                  stateOrDispatch ownProps) with
  | VFun f => f
  | _ => wrapped
  end.

(** The calls a resolved proxy makes for a list of inputs. *)
Definition calls_of (funs : nat -> func) (f : nat)
           (inputs : list (value * value)) : list call :=
  map (fun i => Call f (passed (WrapMapToProps.getDependsOnOwnProps (funs f))
                               (fst i) (snd i))) inputs.

(** What a resolved proxy returns for a list of inputs. *)
Definition results_of (funs : nat -> func) (f : nat)
           (inputs : list (value * value)) : list value :=
  map (fun i => fn_body (funs f)
                  (passed (WrapMapToProps.getDependsOnOwnProps (funs f))
                          (fst i) (snd i))) inputs.

(** What the diagnostic channel holds after [verifyPlainObject] has
    looked at [v], outside production builds. *)
Definition diagnostics (production : bool) (methodName displayName : string)
           (v : value) (out : list WrapMapToProps.warning)
  : list WrapMapToProps.warning :=
  if production then out
  else match v with
       | VObj _ _ => out
       | _ => out ++ [WrapMapToProps.Warning methodName displayName]
       end.

(** What the user's [mergeProps] gives for an input
    [(stateProps, dispatchProps, ownProps)], and the call that asks for
    it. *)
Definition fresh_result (funs : nat -> func) (mergeProps : nat)
           (i : value * value * value) : value :=
  fn_body (funs mergeProps) [fst (fst i); snd (fst i); snd i].

Definition merge_call (mergeProps : nat) (i : value * value * value) : call :=
  Call mergeProps [fst (fst i); snd (fst i); snd i].

(** In a list of successive results, a result is the object returned just
    before it unless [equal] tells the two apart. *)
Fixpoint identity_kept_while_equal (equal : value -> value -> bool)
         (results : list value) : Prop :=
  match results with
  | previous :: (next :: _) as rest =>
      (next = previous \/ equal next previous = false)
      /\ identity_kept_while_equal equal rest
  | _ => True
  end.

(** The pure selector and the wrapper of its [mergeProps] have both run,
    the wrapper is in pure mode, and both hold the same merged props. *)
Definition caches_agree {MS MD : Type}
           (c : SelectorFactory.closure MS MD SelectorFactory.merge_object)
  : Prop :=
  SelectorFactory.hasRunAtLeastOnce c = true
  /\ SelectorFactory.mo_pure (SelectorFactory.mergeProps c) = true
  /\ MergeProps.hasRunOnce
       (SelectorFactory.mo_wrapper (SelectorFactory.mergeProps c)) = true
  /\ MergeProps.mergedProps
       (SelectorFactory.mo_wrapper (SelectorFactory.mergeProps c))
     = SelectorFactory.mergedProps c.

End Spec.

(* ================================================================== *)
(** * Concrete function objects, states and consumers *)
(* ================================================================== *)

Module Examples.
Import WrapMapToProps.

(** [v.name], [undefined] when there is no such property. *)
Definition get_field (name : string) (v : value) : value :=
  match v with
  | VObj _ fields =>
      match find (fun kv => (fst kv =? name)%string) fields with
      | Some kv => snd kv
      | None => VUndefined
      end
  | _ => VUndefined
  end.

(** [state => ({ count: state.count })] *)
Definition countOnly : func :=
  MkFunc [Plain] VUndefined
         (fun args => VObj 10 [("count"%string,
                                get_field "count" (nth 0 args VUndefined))]).

(** [(state, ownProps) => ({ count: state.count, id: ownProps.id })] *)
Definition countAndId : func :=
  MkFunc [Plain; Plain] VUndefined
         (fun args => VObj 11 [("count"%string,
                                get_field "count" (nth 0 args VUndefined));
                               ("id"%string,
                                get_field "id" (nth 1 args VUndefined))]).

(** [() => countOnly], a factory. *)
Definition makeCountOnly : func :=
  MkFunc [] VUndefined (fun _ => VFun 0).

(** [(...args) => ({ n: args.length })] *)
Definition variadic : func :=
  MkFunc [Rest] VUndefined
         (fun args => VObj 13 [("n"%string, VNum (Z.of_nat (List.length args)))]).

(** [countAndId] with [dependsOnOwnProps = false] set on the function. *)
Definition flagged : func :=
  MkFunc [Plain; Plain] (VBool false) (fn_body countAndId).

(** [dispatch => ({ dispatch })] *)
Definition bindDispatch : func :=
  MkFunc [Plain] VUndefined
         (fun args => VObj 15 [("dispatch"%string, nth 0 args VUndefined)]).

(** [(stateProps, dispatchProps, ownProps) =>
      ({ count: stateProps.count, id: ownProps.id })] *)
Definition mergeCountId : func :=
  MkFunc [Plain; Plain; Plain] VUndefined
         (fun args => VObj 16 [("count"%string,
                                get_field "count" (nth 0 args VUndefined));
                               ("id"%string,
                                get_field "id" (nth 2 args VUndefined))]).

(** [(dispatch, ownProps) => ({ dispatch, id: ownProps.id })] *)
Definition bindDispatchWithId : func :=
  MkFunc [Plain; Plain] VUndefined
         (fun args => VObj 17 [("dispatch"%string, nth 0 args VUndefined);
                               ("id"%string,
                                get_field "id" (nth 1 args VUndefined))]).

(** The function objects by address. *)
Definition table (ref : nat) : func :=
  match ref with
  | 0 => countOnly
  | 1 => countAndId
  | 2 => makeCountOnly
  | 3 => variadic
  | 4 => flagged
  | 5 => bindDispatch
  | 6 => mergeCountId
  | _ => bindDispatchWithId
  end.

(** Store states [{ count: 0 }], [{ count: 0 }] again and [{ count: 1 }],
    own props [{ id: 7 }] and [{ id: 8 }], and the store's [dispatch]. *)
Definition count0 : value := VObj 1 [("count"%string, VNum 0)].
Definition count0' : value := VObj 2 [("count"%string, VNum 0)].
Definition count1 : value := VObj 3 [("count"%string, VNum 1)].
Definition id7 : value := VObj 4 [("id"%string, VNum 7)].
Definition id8 : value := VObj 5 [("id"%string, VNum 8)].
Definition the_dispatch : value := VFun 99.

(** Two values agree on the listed properties. *)
Definition same_fields (names : list string) (a b : value) : bool :=
  forallb (fun name => strict_eq (get_field name a) (get_field name b)) names.

(** A connected component: [countOnly] as [mapStateToProps],
    [bindDispatchWithId] as [mapDispatchToProps], [mergeCountId] as
    [mergeProps], in pure mode, after its first call on [{ count: 0 }] and
    [{ id: 7 }]. *)
Definition stateProxy : SelectorFactory.proxy_object :=
  SelectorFactory.MkProxyObject table 0 "mapStateToProps" "Counter" false
    initProxySelector.

Definition dispatchProxy : SelectorFactory.proxy_object :=
  SelectorFactory.MkProxyObject table 7 "mapDispatchToProps" "Counter" false
    initProxySelector.

Definition mergeProxy : SelectorFactory.merge_object :=
  SelectorFactory.MkMergeObject table 6 "Counter" true
    (same_fields ["count"%string; "id"%string]) false
    MergeProps.initMergePropsProxy.

Definition counterClosure : Type :=
  SelectorFactory.closure SelectorFactory.proxy_object
    SelectorFactory.proxy_object SelectorFactory.merge_object.

Definition counterSelector (s o : value)
  : Stateful.St counterClosure value :=
  SelectorFactory.pureFinalPropsSelector the_dispatch strict_eq
    (same_fields ["id"%string]) (same_fields ["count"%string]) s o.

Definition connected : counterClosure :=
  snd (counterSelector count0 id7
         (SelectorFactory.pureFinalPropsSelectorFactory
            stateProxy dispatchProxy mergeProxy)).

(** Selectors by address: [s => s.count] and [s => s.user.name], which
    throws on a state without [user]. *)
Definition cannot_read_name : UseSelector.error :=
  UseSelector.MkError
    "Cannot read property 'name' of undefined"
    "TypeError: Cannot read property 'name' of undefined at selectName".

Definition selector_table (ref : nat) (s : value) : UseSelector.completion :=
  match ref with
  | 0 => UseSelector.Normal (get_field "count" s)
  | _ => match get_field "user" s with
         | VUndefined => UseSelector.Throw cannot_read_name
         | user => UseSelector.Normal (get_field "name" user)
         end
  end.

Definition engine_stack (msg : string) : string := ("Error: " ++ msg)%string.

Definition calling_undefined : UseSelector.error :=
  UseSelector.MkError "latestSelector.current is not a function"
    "TypeError: latestSelector.current is not a function".

(** A consumer of [s => s.count] that rendered on [{ count: 0 }] and
    committed, and a consumer of [s => s.user.name] that rendered on a
    state with a user and committed. *)
Definition counter : UseSelector.hook :=
  snd (UseSelector.commit 0 (VNum 0) UseSelector.unmounted).


Definition greeter : UseSelector.hook :=
  snd (UseSelector.commit 1 (VStr "alice") UseSelector.unmounted).

End Examples.

(* ================================================================== *)
(** * More concrete function objects *)
(* ================================================================== *)

Module MoreExamples.

(** [(state, ownProps = {}) => ({ count: state.count, id: ownProps.id })]:
    the default value is taken when the second argument is missing or
    [undefined]. *)
Definition countAndDefaultedId : func :=
  MkFunc [Plain; Defaulted] VUndefined
         (fun args =>
            let ownProps := match nth 1 args VUndefined with
                            | VUndefined => VObj 20 []
                            | given => given
                            end in
            VObj 21 [("count"%string,
                      Examples.get_field "count" (nth 0 args VUndefined));
                     ("id"%string, Examples.get_field "id" ownProps)]).

(** The function objects by address: [countAndDefaultedId] at 8, the
    functions of [Examples.table] elsewhere. *)
Definition table (ref : nat) : func :=
  match ref with
  | 8 => countAndDefaultedId
  | _ => Examples.table ref
  end.

(** [(stateProps, dispatchProps, ownProps) =>
      ({ count: stateProps.count, id: ownProps.id })], giving a new object
    for each [stateProps] object: the result for the [stateProps] at
    address [a] is at address [100 + a]. *)
Definition mergeIntoNewObject : func :=
  MkFunc [Plain; Plain; Plain] VUndefined
         (fun args =>
            let address := match nth 0 args VUndefined with
                           | VObj a _ => 100 + a
                           | _ => 100
                           end in
            VObj address
                 [("count"%string,
                   Examples.get_field "count" (nth 0 args VUndefined));
                  ("id"%string,
                   Examples.get_field "id" (nth 2 args VUndefined))]).

(** The function objects by address, with [mergeIntoNewObject] at 9. *)
Definition functions (ref : nat) : func :=
  match ref with
  | 9 => mergeIntoNewObject
  | _ => table ref
  end.

(** [state => ({ count: state.count })], giving a new object for each
    state object: the result for the state at address [a] is at address
    [50 + a]. *)
Definition countInNewObject : func :=
  MkFunc [Plain] VUndefined
         (fun args =>
            let address := match nth 0 args VUndefined with
                           | VObj a _ => 50 + a
                           | _ => 50
                           end in
            VObj address
                 [("count"%string,
                   Examples.get_field "count" (nth 0 args VUndefined))]).

(** The function objects by address, with [countInNewObject] at 10. *)
Definition heap (ref : nat) : func :=
  match ref with
  | 10 => countInNewObject
  | _ => functions ref
  end.

(** Another [{ id: 7 }]. *)
Definition id7' : value := VObj 8 [("id"%string, VNum 7)].

(** A connected component that compares states and own props by
    reference and whose mapping functions build new objects, before its
    first call. *)
Definition allocatingState : SelectorFactory.proxy_object :=
  SelectorFactory.MkProxyObject heap 10 "mapStateToProps" "Counter" false
    WrapMapToProps.initProxySelector.

Definition allocatingMerge : SelectorFactory.merge_object :=
  SelectorFactory.MkMergeObject heap 9 "Counter" true
    (Examples.same_fields ["count"%string; "id"%string]) false
    MergeProps.initMergePropsProxy.

(** A connected component whose [mapDispatchToProps] was omitted, so that
    it is the constant selector of [dispatch => ({ dispatch })], after its
    first call on [{ count: 0 }] and [{ id: 7 }]. *)
Definition constantDispatch : WrapMapToProps.constantSelector :=
  WrapMapToProps.initConstantSelector
    (fun dispatch => VObj 15 [("dispatch"%string, dispatch)])
    Examples.the_dispatch.

Definition plainClosure : Type :=
  SelectorFactory.closure SelectorFactory.proxy_object
    WrapMapToProps.constantSelector SelectorFactory.merge_object.

Definition plainSelector (s o : value) : Stateful.St plainClosure value :=
  SelectorFactory.pureFinalPropsSelector Examples.the_dispatch strict_eq
    (Examples.same_fields ["id"%string])
    (Examples.same_fields ["count"%string]) s o.

Definition plainConnected : plainClosure :=
  snd (plainSelector Examples.count0 Examples.id7
         (SelectorFactory.pureFinalPropsSelectorFactory
            Examples.stateProxy constantDispatch Examples.mergeProxy)).

(** Selectors by address: [s => s.count]; a selector of [s.user.name] that
    throws [undefined] on a state without [user]; and
    [s => ({ count: s.count })], which returns a new object at each call,
    here at address 200 plus the number of calls made before. *)
Definition general_selectors (before : list call) (ref : nat) (s : value)
  : UseSelectorGeneral.outcome :=
  match ref with
  | 0 => UseSelectorGeneral.Returns (Examples.get_field "count" s)
  | 1 => match Examples.get_field "user" s with
         | VUndefined =>
             UseSelectorGeneral.Throws (UseSelectorGeneral.ThrownValue VUndefined)
         | user => UseSelectorGeneral.Returns (Examples.get_field "name" user)
         end
  | _ => UseSelectorGeneral.Returns
           (VObj (200 + List.length before)
                 [("count"%string, Examples.get_field "count" s)])
  end.

(** The text of a value in a template literal. *)
Definition text_of (v : value) : string :=
  match v with
  | VUndefined => "undefined"
  | VNull => "null"
  | VBool true => "true"
  | VBool false => "false"
  | VNum n => NilEmpty.string_of_int (Z.to_int n)
  | VNaN => "NaN"
  | VStr s => s
  | VObj _ _ => "[object Object]"
  | VFun _ => "function"
  end.

Definition cannot_read (name : string) (v : value) : UseSelector.error :=
  UseSelector.MkError
    ("Cannot read property '" ++ name ++ "' of " ++ text_of v)
    ("TypeError: Cannot read property '" ++ name ++ "' of " ++ text_of v).

(** Consumers that rendered and committed: one of the selector at 1 with
    the value ["alice"], one of the selector at 0 with the value 1, one of
    the selector at 2 with the object it returned at the render. *)
Definition quietGreeter : UseSelectorGeneral.hook :=
  snd (UseSelectorGeneral.commit 1 (VStr "alice") UseSelectorGeneral.unmounted).

Definition generalCounter : UseSelectorGeneral.hook :=
  snd (UseSelectorGeneral.commit 0 (VNum 1) UseSelectorGeneral.unmounted).

Definition objectCounter : UseSelectorGeneral.hook :=
  snd (UseSelectorGeneral.commit 2 (VObj 200 [("count"%string, VNum 1)])
         (snd (UseSelectorGeneral.useSelector general_selectors
                 Examples.engine_stack text_of cannot_read 2 Examples.count1
                 UseSelectorGeneral.unmounted))).

End MoreExamples.

(* ================================================================== *)
(** * Proof automation *)
(* ================================================================== *)

Module Automation.
Import Stateful SelectorFactory UseSelector.

(** Unfolds the monadic code of the selector down to record updates. *)
Ltac run_selector :=
  unfold pureFinalPropsSelector, handleSubsequentCalls, handleFirstCall,
    handleNewPropsAndNewState, handleNewProps, handleNewState,
    call_mapStateToProps, call_mapDispatchToProps, call_mergeProps,
    set_hasRunAtLeastOnce, set_state, set_ownProps, set_stateProps,
    set_dispatchProps, set_mergedProps, when, bind, gets, modify, ret;
  cbn [hasRunAtLeastOnce state ownProps stateProps dispatchProps mergedProps
       mapStateToProps mapDispatchToProps mergeProps log fst snd].

(** One case split on the next call or test the code reaches. *)
Ltac step_selector :=
  cbn [hasRunAtLeastOnce state ownProps stateProps dispatchProps mergedProps
       mapStateToProps mapDispatchToProps mergeProps log fst snd negb];
  match goal with
  | |- context [invoke ?f ?a ?b] => destruct (invoke f a b) eqn:?
  | |- context [invoke_merge ?g ?a ?b ?d] => destruct (invoke_merge g a b d) eqn:?
  | |- context [if ?b then _ else _] => destruct b eqn:?
  end.

(** Closes [l' = l ++ ?made] when [l'] is [l] followed by appended calls. *)
Ltac log_suffix :=
  cbn [log snd];
  first [ symmetry; apply app_nil_r
        | rewrite <- ?app_assoc; reflexivity ].

(** Unfolds the monadic code of the hook down to record updates. *)
Ltac run_hook :=
  unfold useSelector, checkForUpdates, commit, call_selector, forceRender,
    set_latestSubscriptionCallbackError, set_latestSelector,
    set_latestSelectedState, bind, gets, modify, ret;
  cbn [latestSubscriptionCallbackError latestSelector latestSelectedState
       forceRender_calls selector_calls fst snd].

End Automation.

(* ================================================================== *)
(** * Facts about connect/wrapMapToProps.js *)
(* ================================================================== *)

Module WrapMapToPropsFacts.
Import WrapMapToProps Spec.

Section Facts.

Variable funs : nat -> func.
Variable wrapped : nat.
Variable methodName displayName : string.
Variable production : bool.

Local Abbreviation proxy_call :=
  (mapToPropsProxy funs wrapped methodName displayName production).
Local Abbreviation proxy_calls :=
  (invocations funs wrapped methodName displayName production).

(** One level of [mapToPropsProxy]. *)
Lemma mapToPropsProxy_step (n : nat) (x own : value) (w : adapter) :
  proxy_call (S n) x own w =
  let args := passed (dependsOnOwnProps (the_proxy w)) x own in
  match mapToProps (the_proxy w) with
  | UserFunction f => call_function funs f args w
  | DetectFactoryAndVerify =>
      detectFactoryAndVerify funs wrapped methodName displayName production
        (proxy_call n) (nth 0 args VUndefined) (nth 1 args VUndefined) w
  end.
Proof.
  destruct w as [[s d] cs out]. destruct s, d; reflexivity.
Qed.

(** Once the slot holds a user function, a call of the proxy is one call
    of that function, and the proxy object stays as it is. *)
Lemma resolved_call (n : nat) (f : nat) (x own : value) (w : adapter) :
  mapToProps (the_proxy w) = UserFunction f ->
  proxy_call (S n) x own w =
  Some (fn_body (funs f) (passed (dependsOnOwnProps (the_proxy w)) x own),
        MkAdapter (the_proxy w)
                  (calls w ++ [Call f (passed (dependsOnOwnProps (the_proxy w)) x own)])
                  (console w)).
Proof.
  intros Hslot. rewrite mapToPropsProxy_step, Hslot. reflexivity.
Qed.

(** The first call of a proxy whose slot still holds
    [detectFactoryAndVerify]. *)
Lemma first_call (n : nat) (x own : value) (cs : list call)
      (out : list warning) :
  proxy_call (S (S n)) x own
             (MkAdapter (MkProxy DetectFactoryAndVerify true) cs out) =
  let a0 := passed (getDependsOnOwnProps (funs wrapped)) x own in
  let f := resolved funs wrapped x own in
  let a1 := passed (getDependsOnOwnProps (funs f)) x own in
  let props := if is_function (fn_body (funs wrapped) a0)
               then fn_body (funs f) a1
               else fn_body (funs wrapped) a0 in
  Some (props,
        MkAdapter (MkProxy (UserFunction f) (getDependsOnOwnProps (funs f)))
                  (cs ++ Call wrapped a0 ::
                      (if is_function (fn_body (funs wrapped) a0)
                       then [Call f a1] else []))
                  (diagnostics production methodName displayName props out)).
Proof.
  cbn zeta. unfold resolved.
  rewrite mapToPropsProxy_step. cbn [the_proxy mapToProps dependsOnOwnProps passed nth].
  unfold detectFactoryAndVerify.
  unfold bind at 1, set_mapToProps at 1. cbn [the_proxy dependsOnOwnProps calls console].
  unfold bind at 1, set_dependsOnOwnProps at 1.
  cbn [the_proxy mapToProps calls console].
  unfold bind at 1. rewrite resolved_call with (f := wrapped) by reflexivity.
  cbn [the_proxy dependsOnOwnProps calls console].
  destruct (fn_body (funs wrapped)
              (passed (getDependsOnOwnProps (funs wrapped)) x own)) eqn:E;
    cbn [is_function];
    try (unfold bind, ret, diagnostics, verifyPlainObject, warn;
         destruct production; cbn; reflexivity).
  unfold bind at 1. unfold bind at 1, set_mapToProps at 1.
  cbn [the_proxy dependsOnOwnProps calls console].
  unfold bind at 1, set_dependsOnOwnProps at 1.
  cbn [the_proxy mapToProps calls console].
  rewrite resolved_call with (f := ref) by reflexivity.
  cbn [the_proxy dependsOnOwnProps calls console].
  rewrite <- app_assoc. cbn [app].
  unfold bind, ret, diagnostics, verifyPlainObject, warn.
  destruct production; cbn [negb]; [reflexivity|].
  destruct (fn_body (funs ref) _); reflexivity.
Qed.

(** Later calls of a resolved proxy: one call of the resolved function
    each, the proxy object unchanged. *)
Lemma later_calls (n : nat) (f : nat) (inputs : list (value * value)) :
  forall w : adapter,
    mapToProps (the_proxy w) = UserFunction f ->
    dependsOnOwnProps (the_proxy w) = getDependsOnOwnProps (funs f) ->
    proxy_calls (S n) inputs w =
    Some (results_of funs f inputs,
          MkAdapter (the_proxy w) (calls w ++ calls_of funs f inputs)
                    (console w)).
Proof.
  induction inputs as [|[x own] rest IH]; intros w Hslot Hflag.
  - cbn. rewrite app_nil_r. destruct w; reflexivity.
  - cbn [invocations]. rewrite (resolved_call n f x own w Hslot).
    rewrite IH by assumption.
    cbn [the_proxy calls console results_of calls_of map fst snd].
    rewrite Hflag, <- app_assoc. reflexivity.
Qed.

(** [detectFactoryAndVerify] calls [proxy] only after it has stored a user
    function in the slot. *)
Lemma detectFactoryAndVerify_ext (P Q : value -> value -> M value)
      (x own : value) (w : adapter) :
  (forall y o w', mapToProps (the_proxy w') <> DetectFactoryAndVerify ->
                  P y o w' = Q y o w' /\ Q y o w' <> None) ->
  detectFactoryAndVerify funs wrapped methodName displayName production P x own w
  = detectFactoryAndVerify funs wrapped methodName displayName production Q x own w
  /\ detectFactoryAndVerify funs wrapped methodName displayName production Q x own w
     <> None.
Proof.
  intros HPQ.
  unfold detectFactoryAndVerify, bind, set_mapToProps, set_dependsOnOwnProps.
  cbn [the_proxy mapToProps dependsOnOwnProps calls console].
  match goal with
  | |- context [P x own ?w1] =>
      destruct (HPQ x own w1) as [-> Hsome]; [cbn; discriminate|];
      destruct (Q x own w1) as [[props w2]|]; [clear Hsome|congruence]
  end.
  assert (Hverify : forall (v : value) (w' : adapter),
            match (if negb production
                   then verifyPlainObject v displayName methodName
                   else ret tt) w' with
            | Some (_, w'') => ret v w''
            | None => None
            end <> None).
  { intros v w'. destruct production; cbn; [discriminate|].
    destruct v; discriminate. }
  destruct props; try (split; [reflexivity|apply Hverify]).
  match goal with
  | |- context [P x own ?w3] =>
      destruct (HPQ x own w3) as [-> Hsome]; [cbn; discriminate|];
      destruct (Q x own w3) as [[props' w4]|]; [clear Hsome|congruence]
  end.
  split; [reflexivity|apply Hverify].
Qed.

(** Two levels of fuel are enough for every call, whatever the proxy
    holds, and more fuel changes nothing. *)
Lemma enough_fuel (n : nat) (x own : value) (w : adapter) :
  proxy_call (S (S n)) x own w = proxy_call 2 x own w
  /\ proxy_call 2 x own w <> None.
Proof.
  rewrite !mapToPropsProxy_step. cbn zeta.
  destruct (mapToProps (the_proxy w)) eqn:Hs;
    [|split; [reflexivity|discriminate]].
  apply detectFactoryAndVerify_ext.
  intros y o w' Hslot. rewrite !mapToPropsProxy_step.
  destruct (mapToProps (the_proxy w')); [congruence|].
  split; [reflexivity|discriminate].
Qed.

(** C6.  [getDependsOnOwnProps(f)] is [Boolean(f.dependsOnOwnProps)]
    whenever that property is neither [null] nor [undefined]; otherwise it
    is [true] exactly when the declared arity of [f] is not 1: arity 1
    gives [false], arity 0 (a function with no parameter, or with a rest
    parameter only) and arity 2 or more give [true]. *)
Theorem getDependsOnOwnProps_flag_or_arity (f : func) :
  (fn_dependsOnOwnProps f <> VNull /\ fn_dependsOnOwnProps f <> VUndefined ->
   getDependsOnOwnProps f = Boolean (fn_dependsOnOwnProps f))
  /\ (fn_dependsOnOwnProps f = VNull \/ fn_dependsOnOwnProps f = VUndefined ->
      (getDependsOnOwnProps f = true <-> fn_length f <> 1)
      /\ (fn_length f = 1 -> getDependsOnOwnProps f = false)
      /\ (fn_length f = 0 -> getDependsOnOwnProps f = true)
      /\ (2 <= fn_length f -> getDependsOnOwnProps f = true)
      /\ (forall ps, fn_formals f = Rest :: ps -> getDependsOnOwnProps f = true)).
Proof.
  unfold getDependsOnOwnProps. split.
  - intros [Hnull Hundef].
    destruct (fn_dependsOnOwnProps f); try reflexivity; congruence.
  - intros Hflag.
    assert (Harity : (if negb (is_null (fn_dependsOnOwnProps f))
                         && negb (is_undefined (fn_dependsOnOwnProps f))
                      then Boolean (fn_dependsOnOwnProps f)
                      else negb (fn_length f =? 1))
                     = negb (fn_length f =? 1))
      by (destruct Hflag as [-> | ->]; reflexivity).
    rewrite Harity. clear Harity Hflag.
    destruct (Nat.eqb_spec (fn_length f) 1) as [E|N]; cbn [negb].
    + repeat split; intros; try congruence; try lia.
      unfold fn_length in E. rewrite H in E. discriminate.
    + repeat split; intros; congruence.
Qed.

(** C5.  When the wrapped function returns a function on the first
    invocation of a fresh adapter: that invocation calls the wrapped
    function once and then the returned function once, and nothing else;
    it leaves the returned function in the adapter's slot with
    [dependsOnOwnProps] computed from it; and any number of later
    invocations call the returned function once each and nothing else,
    the slot and the flag staying as they are. *)
Theorem factory_resolved_once (n : nat) (x own : value) (g : nat)
        (later : list (value * value)) :
  fn_body (funs wrapped) (passed (getDependsOnOwnProps (funs wrapped)) x own)
  = VFun g ->
  exists (props : value) (w1 : adapter) (results : list value) (w2 : adapter),
    proxy_call (S (S n)) x own initProxySelector = Some (props, w1)
    /\ calls w1 = [Call wrapped (passed (getDependsOnOwnProps (funs wrapped)) x own);
                   Call g (passed (getDependsOnOwnProps (funs g)) x own)]
    /\ props = fn_body (funs g) (passed (getDependsOnOwnProps (funs g)) x own)
    /\ the_proxy w1 = MkProxy (UserFunction g) (getDependsOnOwnProps (funs g))
    /\ proxy_calls (S (S n)) later w1 = Some (results, w2)
    /\ calls w2 = calls w1 ++ calls_of funs g later
    /\ results = results_of funs g later
    /\ the_proxy w2 = the_proxy w1.
Proof.
  intros Hfactory. unfold initProxySelector.
  rewrite first_call. cbn zeta. unfold resolved. rewrite Hfactory.
  cbn [is_function app].
  do 4 eexists. split; [reflexivity|].
  cbn [calls the_proxy].
  rewrite later_calls with (f := g) by reflexivity.
  cbn [calls the_proxy].
  repeat split; reflexivity.
Qed.

(** C10, as the code has it.  A fresh proxy has [dependsOnOwnProps] set to
    [true], so its first invocation hands [ownProps] on to
    [detectFactoryAndVerify]; the wrapped function is then called first,
    with [ownProps] as a second argument if and only if
    [getDependsOnOwnProps] of the wrapped function is [true]; when the first
    invocation is over the proxy's flag is [getDependsOnOwnProps] of the
    resolved function, and every later call passes [ownProps] if and only
    if that flag is [true]. *)
Theorem first_call_passes_ownProps_by_flag (n : nat) (x own : value)
        (later : list (value * value)) :
  dependsOnOwnProps (the_proxy initProxySelector) = true
  /\ proxy_call (S (S n)) x own initProxySelector
     = detectFactoryAndVerify funs wrapped methodName displayName production
         (proxy_call (S n)) x own initProxySelector
  /\ exists (props : value) (w1 : adapter) (results : list value) (w2 : adapter),
       proxy_call (S (S n)) x own initProxySelector = Some (props, w1)
       /\ hd_error (calls w1)
          = Some (Call wrapped
                       (passed (getDependsOnOwnProps (funs wrapped)) x own))
       /\ the_proxy w1
          = MkProxy (UserFunction (resolved funs wrapped x own))
                    (getDependsOnOwnProps (funs (resolved funs wrapped x own)))
       /\ proxy_calls (S (S n)) later w1 = Some (results, w2)
       /\ calls w2
          = calls w1
              ++ map (fun i => Call (resolved funs wrapped x own)
                                 (passed (dependsOnOwnProps (the_proxy w1))
                                         (fst i) (snd i))) later.
Proof.
  split; [reflexivity|]. split; [apply mapToPropsProxy_step|].
  unfold initProxySelector. rewrite first_call. cbn zeta.
  do 4 eexists. split; [reflexivity|].
  cbn [calls the_proxy app hd_error dependsOnOwnProps].
  rewrite later_calls with (f := resolved funs wrapped x own) by reflexivity.
  repeat split; reflexivity.
Qed.

End Facts.

(** C6 at the example functions: a one-parameter function, a factory
    without parameters and an explicit flag. *)
Lemma getDependsOnOwnProps_examples :
  getDependsOnOwnProps Examples.countOnly = false
  /\ getDependsOnOwnProps Examples.countAndId = true
  /\ getDependsOnOwnProps Examples.makeCountOnly = true
  /\ getDependsOnOwnProps Examples.variadic = true
  /\ getDependsOnOwnProps Examples.flagged = false.
Proof. repeat split. Qed.

(** C5 at the factory [makeCountOnly], then two more invocations. *)
Lemma factory_resolved_once_witness :
  exists (props : value) (w1 : adapter) (results : list value) (w2 : adapter),
    mapToPropsProxy Examples.table 2 "mapStateToProps" "Counter" false 2
                    Examples.count0 Examples.id7 initProxySelector
    = Some (props, w1)
    /\ calls w1 = [Call 2 [Examples.count0; Examples.id7];
                   Call 0 [Examples.count0]]
    /\ props = VObj 10 [("count"%string, VNum 0)]
    /\ the_proxy w1 = MkProxy (UserFunction 0) false
    /\ invocations Examples.table 2 "mapStateToProps" "Counter" false 2
                   [(Examples.count1, Examples.id7);
                    (Examples.count1, Examples.id8)] w1
       = Some (results, w2)
    /\ calls w2 = calls w1 ++ [Call 0 [Examples.count1];
                               Call 0 [Examples.count1]]
    /\ results = [VObj 10 [("count"%string, VNum 1)];
                  VObj 10 [("count"%string, VNum 1)]]
    /\ the_proxy w2 = the_proxy w1.
Proof.
  exact (factory_resolved_once Examples.table 2 "mapStateToProps" "Counter"
           false 0 Examples.count0 Examples.id7 0
           [(Examples.count1, Examples.id7); (Examples.count1, Examples.id8)]
           eq_refl).
Defined.

(** C10 as stated fails: the one-parameter function [countOnly], wrapped
    in a fresh proxy, is called with the state alone on the first
    invocation; [ownProps] is not passed to it. *)
Lemma first_call_without_ownProps :
  exists (props : value) (w1 : adapter),
    mapToPropsProxy Examples.table 0 "mapStateToProps" "Counter" false 2
                    Examples.count0 Examples.id7 initProxySelector
    = Some (props, w1)
    /\ calls w1 = [Call 0 [Examples.count0]]
    /\ calls w1 <> [Call 0 [Examples.count0; Examples.id7]].
Proof.
  do 2 eexists. split; [reflexivity|]. split; [reflexivity|].
  cbn. discriminate.
Qed.

End WrapMapToPropsFacts.

(* ================================================================== *)
(** * Facts about connect/mergeProps.js *)
(* ================================================================== *)

Module MergePropsFacts.
Import Stateful MergeProps.

Section Facts.

Variable funs : nat -> func.
Variable mergeProps : nat.
Variable displayName : string.
Variable pure : bool.
Variable areMergedPropsEqual : value -> value -> bool.
Variable production : bool.

Local Abbreviation proxy_call :=
  (mergePropsProxy funs mergeProps displayName pure areMergedPropsEqual
                   production).

(** A call of the wrapper after its first one, as one equation. *)
Lemma mergePropsProxy_after_first (w : wrapper) (sp dp o : value) :
  hasRunOnce w = true ->
  proxy_call sp dp o w =
  let next := fn_body (funs mergeProps) [sp; dp; o] in
  let kept := if negb pure || negb (areMergedPropsEqual next (mergedProps w))
              then next else mergedProps w in
  (kept, MkWrapper true kept (calls w ++ [Call mergeProps [sp; dp; o]])
                   (console w)).
Proof.
  intros Hran. destruct w as [ran cached cs out]. cbn in Hran. subst ran.
  unfold mergePropsProxy, bind, call_mergeProps, gets, when, set_mergedProps,
    modify, ret.
  cbn [hasRunOnce mergedProps calls console].
  destruct (negb pure || negb (areMergedPropsEqual _ cached)); reflexivity.
Qed.

(** C4.  After its first invocation the wrapper calls the user's
    [mergeProps] once per invocation.  In pure mode, when the fresh result
    is [areMergedPropsEqual] to the cached one, the cached value (the same
    object, not an equal copy) is returned and stays cached; when it is
    not, or when [pure] is false, the fresh result becomes the cached value
    and is returned. *)
Theorem mergePropsProxy_reuses_equal_result (w : wrapper) (sp dp o : value) :
  hasRunOnce w = true ->
  let next := fn_body (funs mergeProps) [sp; dp; o] in
  let out := proxy_call sp dp o w in
  calls (snd out) = calls w ++ [Call mergeProps [sp; dp; o]]
  /\ hasRunOnce (snd out) = true
  /\ (pure = true -> areMergedPropsEqual next (mergedProps w) = true ->
      fst out = mergedProps w /\ mergedProps (snd out) = mergedProps w)
  /\ (pure = false \/ areMergedPropsEqual next (mergedProps w) = false ->
      fst out = next /\ mergedProps (snd out) = next).
Proof.
  intros Hran next out. subst out.
  rewrite (mergePropsProxy_after_first w sp dp o Hran). cbn zeta.
  cbn [fst snd calls hasRunOnce mergedProps]. fold next.
  split; [reflexivity|]. split; [reflexivity|]. split.
  - intros -> ->. cbn. split; reflexivity.
  - intros [-> | ->]; cbn [negb orb]; [split; reflexivity|].
    rewrite orb_true_r. split; reflexivity.
Qed.

End Facts.

(** C4 on a wrapper that has cached [{ count: 0, id: 7 }] at address 40
    and compares merged props by their [count]: the fresh object at
    address 16 is equal, and the object at address 40 is returned. *)
Lemma mergePropsProxy_reuses_equal_result_witness :
  let w := MkWrapper true
             (VObj 40 [("count"%string, VNum 0); ("id"%string, VNum 7)])
             [] [] in
  let same_count := fun a b : value =>
        strict_eq (Examples.get_field "count" a) (Examples.get_field "count" b) in
  let out := mergePropsProxy Examples.table 6 "Counter" true same_count false
               (VObj 10 [("count"%string, VNum 0)]) (VObj 15 []) Examples.id7 w in
  calls (snd out)
  = [Call 6 [VObj 10 [("count"%string, VNum 0)]; VObj 15 []; Examples.id7]]
  /\ hasRunOnce (snd out) = true
  /\ fst out = VObj 40 [("count"%string, VNum 0); ("id"%string, VNum 7)]
  /\ mergedProps (snd out)
     = VObj 40 [("count"%string, VNum 0); ("id"%string, VNum 7)].
Proof.
  cbn zeta.
  pose proof (mergePropsProxy_reuses_equal_result Examples.table 6 "Counter"
                true
                (fun a b : value =>
                   strict_eq (Examples.get_field "count" a)
                             (Examples.get_field "count" b))
                false
                (MkWrapper true
                   (VObj 40 [("count"%string, VNum 0); ("id"%string, VNum 7)])
                   [] [])
                (VObj 10 [("count"%string, VNum 0)]) (VObj 15 []) Examples.id7
                eq_refl) as H.
  cbn zeta in H. destruct H as [Hcalls [Hran [Hequal _]]].
  split; [exact Hcalls|]. split; [exact Hran|].
  exact (Hequal eq_refl eq_refl).
Defined.

End MergePropsFacts.

(* ================================================================== *)
(** * Facts about connect/selectorFactory.js *)
(* ================================================================== *)

Module SelectorFactoryFacts.
Import Stateful SelectorFactory Automation.

Section Facts.

Context {MS MD MG : Type}.
Context `{MapToProps MS} `{MapToProps MD} `{Merge MG}.

Variable dispatch : value.
Variable areStatesEqual areOwnPropsEqual areStatePropsEqual
  : value -> value -> bool.

Local Abbreviation selector :=
  (pureFinalPropsSelector dispatch areStatesEqual areOwnPropsEqual
                          areStatePropsEqual).

(** C1.  A call of the pure selector after the first one, by what the two
    comparisons report.  Nothing changed: the cached [mergedProps] is
    returned and no function is called.  Only the state changed:
    [mapStateToProps] is called, and [mergeProps] is called exactly when
    [areStatePropsEqual(new, old)] is false.  Only the own props changed:
    each of [mapStateToProps] and [mapDispatchToProps] is called exactly
    when its [dependsOnOwnProps] is true, and [mergeProps] is called.  Both
    changed: [mapStateToProps] is called, [mapDispatchToProps] exactly when
    its [dependsOnOwnProps] is true, and [mergeProps] is called. *)
Theorem subsequent_call_recomputes_by_change (c : closure MS MD MG)
        (nextState nextOwnProps : value) :
  hasRunAtLeastOnce c = true ->
  let propsChanged := negb (areOwnPropsEqual nextOwnProps (ownProps c)) in
  let stateChanged := negb (areStatesEqual nextState (state c)) in
  let dependsS := Boolean (get_dependsOnOwnProps (mapStateToProps c)) in
  let dependsD := Boolean (get_dependsOnOwnProps (mapDispatchToProps c)) in
  let newStateProps :=
    fst (invoke (mapStateToProps c) nextState nextOwnProps) in
  let out := selector nextState nextOwnProps c in
  exists made : list invocation,
    log (snd out) = log c ++ made
    /\ match propsChanged, stateChanged with
       | false, false =>
           made = [] /\ fst out = mergedProps c
           /\ mergedProps (snd out) = mergedProps c
       | false, true =>
           map kind made
           = KMapState :: (if areStatePropsEqual newStateProps (stateProps c)
                           then [] else [KMerge])
       | true, false =>
           map kind made
           = (if dependsS then [KMapState] else [])
               ++ (if dependsD then [KMapDispatch] else []) ++ [KMerge]
       | true, true =>
           map kind made
           = KMapState :: (if dependsD then [KMapDispatch] else []) ++ [KMerge]
       end.
Proof.
  intros Hran propsChanged stateChanged dependsS dependsD newStateProps out.
  subst out propsChanged stateChanged dependsS dependsD newStateProps.
  destruct c as [ran s o sp dp mp ms md mg l]. cbn in Hran. subst ran.
  run_selector.
  destruct (areOwnPropsEqual nextOwnProps o), (areStatesEqual nextState s);
    cbn [negb andb];
    repeat step_selector;
    try (match goal with
         | E : negb _ = _ |- _ => cbn in E; discriminate E
         end);
    eexists; (split; [log_suffix|]); cbn; repeat split; reflexivity.
Qed.

(** Once the selector has run, it has run. *)
Lemma hasRunAtLeastOnce_stays (c : closure MS MD MG) (s o : value) :
  hasRunAtLeastOnce c = true ->
  hasRunAtLeastOnce (snd (selector s o c)) = true.
Proof.
  intros Hran. destruct c as [ran s0 o0 sp dp mp ms md mg l].
  cbn in Hran. subst ran. run_selector.
  destruct (areOwnPropsEqual o o0), (areStatesEqual s s0); cbn [negb andb];
    repeat step_selector; reflexivity.
Qed.

Lemma hasRunAtLeastOnce_stays_calls (inputs : list (value * value)) :
  forall c : closure MS MD MG,
    hasRunAtLeastOnce c = true ->
    hasRunAtLeastOnce
      (snd (pureFinalPropsSelector_calls dispatch areStatesEqual
              areOwnPropsEqual areStatePropsEqual inputs c)) = true.
Proof.
  induction inputs as [|[s o] rest IH]; intros c Hran; [exact Hran|].
  cbn [pureFinalPropsSelector_calls]. unfold bind at 1.
  pose proof (hasRunAtLeastOnce_stays c s o Hran) as Hnext.
  destruct (selector s o c) as [v c1]. cbn [snd] in Hnext.
  unfold bind at 1. specialize (IH c1 Hnext).
  destruct (pureFinalPropsSelector_calls _ _ _ _ rest c1) as [vs c2].
  exact IH.
Qed.

(** C7.  The first call of a pure selector calls [mapStateToProps],
    [mapDispatchToProps] and [mergeProps], in this order and once each,
    whatever their [dependsOnOwnProps] and whatever the comparison
    functions are; it stores both arguments and the three results, returns
    the merged result and sets [hasRunAtLeastOnce]; after any number of
    further calls the flag is still set, and a call is then a call of
    [handleSubsequentCalls]. *)
Theorem first_call_computes_everything (ms : MS) (md : MD) (mg : MG)
        (s o : value) (later : list (value * value)) :
  let sp := fst (invoke ms s o) in
  let dp := fst (invoke md dispatch o) in
  let mp := fst (invoke_merge mg sp dp o) in
  let out := selector s o (pureFinalPropsSelectorFactory ms md mg) in
  let c2 := snd (pureFinalPropsSelector_calls dispatch areStatesEqual
                   areOwnPropsEqual areStatePropsEqual later (snd out)) in
  selector s o (pureFinalPropsSelectorFactory ms md mg)
  = handleFirstCall dispatch s o (pureFinalPropsSelectorFactory ms md mg)
  /\ fst out = mp
  /\ log (snd out) = [MapStateToProps s o; MapDispatchToProps dispatch o;
                      MergeProps sp dp o]
  /\ state (snd out) = s
  /\ ownProps (snd out) = o
  /\ stateProps (snd out) = sp
  /\ dispatchProps (snd out) = dp
  /\ mergedProps (snd out) = mp
  /\ hasRunAtLeastOnce (snd out) = true
  /\ hasRunAtLeastOnce c2 = true
  /\ forall s' o' : value,
       selector s' o' c2
       = handleSubsequentCalls dispatch areStatesEqual areOwnPropsEqual
                               areStatePropsEqual s' o' c2.
Proof.
  intros sp dp mp out c2.
  assert (Hout : hasRunAtLeastOnce (snd out) = true
                 /\ fst out = mp
                 /\ log (snd out) = [MapStateToProps s o;
                                     MapDispatchToProps dispatch o;
                                     MergeProps sp dp o]
                 /\ state (snd out) = s /\ ownProps (snd out) = o
                 /\ stateProps (snd out) = sp /\ dispatchProps (snd out) = dp
                 /\ mergedProps (snd out) = mp).
  { subst out mp dp sp. unfold pureFinalPropsSelectorFactory. run_selector.
    repeat step_selector. repeat split; reflexivity. }
  destruct Hout as [Hran Hrest].
  assert (Hran2 : hasRunAtLeastOnce c2 = true)
    by (subst c2; apply hasRunAtLeastOnce_stays_calls; exact Hran).
  split; [reflexivity|].
  destruct Hrest as (? & ? & ? & ? & ? & ? & ?).
  repeat (split; [assumption|]).
  intros s' o'. unfold pureFinalPropsSelector, bind, gets.
  rewrite Hran2. reflexivity.
Qed.

End Facts.

(** A proxy handed to the factories always returns: the two levels of
    call nesting it is run with are never exhausted. *)
Lemma call_proxy_object_returns (p : proxy_object) (x own : value) :
  exists (v : value) (a : WrapMapToProps.adapter),
    WrapMapToProps.mapToPropsProxy (po_funs p) (po_wrapped p)
      (po_methodName p) (po_displayName p) (po_production p) 2 x own
      (po_adapter p) = Some (v, a)
    /\ call_proxy_object p x own
       = (v, MkProxyObject (po_funs p) (po_wrapped p) (po_methodName p)
               (po_displayName p) (po_production p) a).
Proof.
  unfold call_proxy_object.
  destruct (WrapMapToPropsFacts.enough_fuel (po_funs p) (po_wrapped p)
              (po_methodName p) (po_displayName p) (po_production p)
              0 x own (po_adapter p)) as [_ Hsome].
  destruct (WrapMapToProps.mapToPropsProxy _ _ _ _ _ 2 x own (po_adapter p))
    as [[v a]|]; [|contradiction].
  exists v, a. split; reflexivity.
Qed.

(** C1 on the connected counter: the four combinations of a changed state
    and changed own props.  [countOnly] does not depend on own props,
    [bindDispatchWithId] does. *)
Lemma subsequent_call_recomputes_by_change_witness :
  (exists made : list invocation,
     log (snd (Examples.counterSelector Examples.count0 Examples.id7
                 Examples.connected))
     = log Examples.connected ++ made
     /\ made = []
     /\ fst (Examples.counterSelector Examples.count0 Examples.id7
               Examples.connected)
        = mergedProps Examples.connected
     /\ mergedProps (snd (Examples.counterSelector Examples.count0 Examples.id7
                            Examples.connected))
        = mergedProps Examples.connected)
  /\ (exists made : list invocation,
        log (snd (Examples.counterSelector Examples.count1 Examples.id7
                    Examples.connected))
        = log Examples.connected ++ made
        /\ map kind made = [KMapState; KMerge])
  /\ (exists made : list invocation,
        log (snd (Examples.counterSelector Examples.count0 Examples.id8
                    Examples.connected))
        = log Examples.connected ++ made
        /\ map kind made = [KMapDispatch; KMerge])
  /\ (exists made : list invocation,
        log (snd (Examples.counterSelector Examples.count1 Examples.id8
                    Examples.connected))
        = log Examples.connected ++ made
        /\ map kind made = [KMapState; KMapDispatch; KMerge]).
Proof.
  split; [|split; [|split]].
  - exact (subsequent_call_recomputes_by_change Examples.the_dispatch strict_eq
             (Examples.same_fields ["id"%string])
             (Examples.same_fields ["count"%string])
             Examples.connected Examples.count0 Examples.id7 eq_refl).
  - exact (subsequent_call_recomputes_by_change Examples.the_dispatch strict_eq
             (Examples.same_fields ["id"%string])
             (Examples.same_fields ["count"%string])
             Examples.connected Examples.count1 Examples.id7 eq_refl).
  - exact (subsequent_call_recomputes_by_change Examples.the_dispatch strict_eq
             (Examples.same_fields ["id"%string])
             (Examples.same_fields ["count"%string])
             Examples.connected Examples.count0 Examples.id8 eq_refl).
  - exact (subsequent_call_recomputes_by_change Examples.the_dispatch strict_eq
             (Examples.same_fields ["id"%string])
             (Examples.same_fields ["count"%string])
             Examples.connected Examples.count1 Examples.id8 eq_refl).
Defined.

End SelectorFactoryFacts.

(* ================================================================== *)
(** * Facts about hooks/useSelector.js *)
(* ================================================================== *)

Module UseSelectorFacts.
Import Stateful UseSelector Automation.

Lemma selector_differs_false (selector : nat) (latest : option nat) :
  selector_differs selector latest = false <-> latest = Some selector.
Proof.
  destruct latest as [s|]; cbn; [|split; discriminate].
  destruct (Nat.eqb_spec selector s) as [->|N]; cbn; split; intros E;
    try reflexivity; try discriminate.
  injection E as ->. contradiction.
Qed.



Lemma occurs_in_middle (a b c : string) : occurs_in b (a ++ b ++ c)%string.
Proof. exists a, c. reflexivity. Qed.

Lemma append_assoc (a b c : string) :
  ((a ++ b) ++ c = a ++ (b ++ c))%string.
Proof. induction a as [|ch a IH]; cbn; [reflexivity|]. now rewrite IH. Qed.

Section Facts.

Variable selectors : nat -> value -> completion.
Variable equalityFn : value -> value -> bool.
Variable capture_stack : string -> string.
Variable not_a_function : error.

Local Abbreviation render := (useSelector selectors capture_stack).
Local Abbreviation notify :=
  (checkForUpdates selectors equalityFn not_a_function).



(** What the render pass throws when the selector it calls throws. *)
Lemma render_rethrows (h : hook) (selector : nat) (storeState : value)
      (err : error) :
  selector_differs selector (latestSelector h)
  || match latestSubscriptionCallbackError h with
     | Some _ => true
     | None => false
     end = true ->
  selectors selector storeState = Throw err ->
  fst (render selector storeState h)
  = Throw (new_Error capture_stack
             match latestSubscriptionCallbackError h with
             | Some previous =>
                 (("An error occured while selecting the store state: "
                     ++ message err ++ ".")
                    ++ nl
                    ++ "The error may be correlated with this previous error:"
                    ++ nl ++ stack previous ++ nl ++ nl
                    ++ "Original stack trace:")%string
             | None =>
                 ("An error occured while selecting the store state: "
                    ++ message err ++ ".")%string
             end).
Proof.
  intros Hcall Hthrow. destruct h as [e l v n cs]. run_hook.
  cbn [latestSubscriptionCallbackError latestSelector] in Hcall.
  rewrite Hcall. cbn [fst snd latestSubscriptionCallbackError].
  rewrite Hthrow. destruct e; reflexivity.
Qed.

Lemma invalidated_calls (h : hook) (selector : nat) :
  latestSelector h <> Some selector
  \/ latestSubscriptionCallbackError h <> None ->
  selector_differs selector (latestSelector h)
  || match latestSubscriptionCallbackError h with
     | Some _ => true
     | None => false
     end = true.
Proof.
  intros [Hl|He].
  - destruct (selector_differs selector (latestSelector h)) eqn:Hd;
      [reflexivity|].
    apply selector_differs_false in Hd. contradiction.
  - destruct (latestSubscriptionCallbackError h); [|contradiction].
    apply orb_true_r.
Qed.

(** C8.  When the selector called by a render pass throws, the hook throws
    an error whose message contains the message of the error thrown; when
    an error of the subscription callback is stored, the message contains
    the stack trace of that error as well. *)
Theorem render_error_names_both_errors (h : hook) (selector : nat)
        (storeState : value) (err : error) :
  latestSelector h <> Some selector
  \/ latestSubscriptionCallbackError h <> None ->
  selectors selector storeState = Throw err ->
  exists e : error,
    fst (render selector storeState h) = Throw e
    /\ occurs_in (message err) (message e)
    /\ (forall previous : error,
          latestSubscriptionCallbackError h = Some previous ->
          occurs_in (stack previous) (message e))
    /\ (latestSubscriptionCallbackError h = None ->
        message e = ("An error occured while selecting the store state: "
                       ++ message err ++ ".")%string).
Proof.
  intros Hinv Hthrow.
  rewrite (render_rethrows h selector storeState err
             (invalidated_calls h selector Hinv) Hthrow).
  eexists. split; [reflexivity|]. cbn [new_Error message].
  destruct (latestSubscriptionCallbackError h) as [prev|].
  - split; [|split].
    + exists "An error occured while selecting the store state: "%string,
             ("." ++ nl
                  ++ "The error may be correlated with this previous error:"
                  ++ nl ++ stack prev ++ nl ++ nl
                  ++ "Original stack trace:")%string.
      rewrite !append_assoc. reflexivity.
    + intros previous E. injection E as <-.
      exists (("An error occured while selecting the store state: "
                 ++ message err ++ ".")
                ++ nl
                ++ "The error may be correlated with this previous error:"
                ++ nl)%string,
             (nl ++ nl ++ "Original stack trace:")%string.
      rewrite !append_assoc. reflexivity.
    + discriminate.
  - split; [apply occurs_in_middle|]. split; [discriminate|reflexivity].
Qed.

(** C2.  A store notification to a mounted consumer calls the selector of
    the last commit on the current store state.  When [equalityFn] finds
    the new selected state equal to the cached one, the cached one stays
    and [forceRender] is not called; when it does not, the new one is
    cached and [forceRender] is called once. *)
Theorem notification_rerenders_on_change (h : hook) (selector : nat)
        (storeState newSelectedState : value) :
  latestSelector h = Some selector ->
  selectors selector storeState = Normal newSelectedState ->
  let h' := snd (notify storeState h) in
  selector_calls h' = selector_calls h ++ [Call selector [storeState]]
  /\ (equalityFn newSelectedState (latestSelectedState h) = true ->
      latestSelectedState h' = latestSelectedState h
      /\ forceRender_calls h' = forceRender_calls h)
  /\ (equalityFn newSelectedState (latestSelectedState h) = false ->
      latestSelectedState h' = newSelectedState
      /\ forceRender_calls h' = S (forceRender_calls h))
  /\ latestSelector h' = latestSelector h
  /\ latestSubscriptionCallbackError h' = latestSubscriptionCallbackError h.
Proof.
  intros Hl Hsel h'. subst h'. destruct h as [e l v n cs].
  cbn [latestSelector latestSelectedState forceRender_calls selector_calls
       latestSubscriptionCallbackError] in *.
  subst l. run_hook. rewrite Hsel.
  cbn [latestSelectedState].
  destruct (equalityFn newSelectedState v); cbn;
    repeat split; try reflexivity; discriminate.
Qed.

End Facts.

(** C2 on the counter: a notification with [{ count: 1 }] caches 1 and
    asks for one render; a notification with another [{ count: 0 }] leaves
    the cache and asks for none. *)
Lemma notification_rerenders_on_change_witness :
  (latestSelectedState
     (snd (checkForUpdates Examples.selector_table refEquality
             Examples.calling_undefined Examples.count1 Examples.counter))
   = VNum 1
   /\ forceRender_calls
        (snd (checkForUpdates Examples.selector_table refEquality
                Examples.calling_undefined Examples.count1 Examples.counter))
      = 1)
  /\ (latestSelectedState
        (snd (checkForUpdates Examples.selector_table refEquality
                Examples.calling_undefined Examples.count0' Examples.counter))
      = VNum 0
      /\ forceRender_calls
           (snd (checkForUpdates Examples.selector_table refEquality
                   Examples.calling_undefined Examples.count0'
                   Examples.counter))
         = 0).
Proof.
  split.
  - exact (proj1 (proj2 (proj2
             (notification_rerenders_on_change Examples.selector_table
                refEquality Examples.calling_undefined Examples.counter 0
                Examples.count1 (VNum 1) eq_refl eq_refl))) eq_refl).
  - exact (proj1 (proj2
             (notification_rerenders_on_change Examples.selector_table
                refEquality Examples.calling_undefined Examples.counter 0
                Examples.count0' (VNum 0) eq_refl eq_refl)) eq_refl).
Defined.

(** C8 on the greeter after that notification: the render pass calls the
    selector again, it throws again, and the error raised names both the
    message of the new error and the stack of the stored one. *)
Lemma render_error_names_both_errors_witness :
  exists e : error,
    fst (useSelector Examples.selector_table Examples.engine_stack 1
           Examples.count0
           (snd (checkForUpdates Examples.selector_table refEquality
                   Examples.calling_undefined Examples.count0
                   Examples.greeter)))
    = Throw e
    /\ occurs_in "Cannot read property 'name' of undefined" (message e)
    /\ occurs_in
         "TypeError: Cannot read property 'name' of undefined at selectName"
         (message e).
Proof.
  destruct (render_error_names_both_errors Examples.selector_table
              Examples.engine_stack
              (snd (checkForUpdates Examples.selector_table refEquality
                      Examples.calling_undefined Examples.count0
                      Examples.greeter))
              1 Examples.count0 Examples.cannot_read_name
              (or_intror (fun E => eq_ind (Some Examples.cannot_read_name)
                                     (fun o => match o with
                                               | Some _ => True
                                               | None => False
                                               end) I None E))
              eq_refl) as [e [He [Hmsg [Hstack _]]]].
  exists e. split; [exact He|]. split; [exact Hmsg|].
  exact (Hstack Examples.cannot_read_name eq_refl).
Defined.

(** The scenario of the specification: the store starts at [{ count: 0 }]
    and the selector is [s => s.count]; a mutation to an equal
    [{ count: 0 }] asks for no render, a mutation to [{ count: 1 }] asks
    for exactly one, and that render reads 1 from the cache without
    calling the selector. *)
Example counter_scenario :
  let notify := checkForUpdates Examples.selector_table refEquality
                  Examples.calling_undefined in
  let render := useSelector Examples.selector_table Examples.engine_stack in
  let h0 := unmounted in
  let r1 := render 0 Examples.count0 h0 in
  let h1 := snd (commit 0 (VNum 0) (snd r1)) in
  let h2 := snd (mount Examples.selector_table refEquality
                   Examples.calling_undefined Examples.count0 h1) in
  let h3 := snd (notify Examples.count0' h2) in
  let h4 := snd (notify Examples.count1 h3) in
  let r5 := render 0 Examples.count1 h4 in
  fst r1 = Normal (VNum 0)
  /\ forceRender_calls h2 = 0
  /\ forceRender_calls h3 = 0
  /\ forceRender_calls h4 = 1
  /\ fst r5 = Normal (VNum 1)
  /\ selector_calls (snd r5) = selector_calls h4.
Proof. cbv zeta. repeat split. Qed.

End UseSelectorFacts.

(* ================================================================== *)
(** * More facts about connect/wrapMapToProps.js *)
(* ================================================================== *)

Module WrapMapToPropsMore.
Import WrapMapToProps Spec.

Section Facts.

Variable funs : nat -> func.
Variable wrapped : nat.
Variable methodName displayName : string.
Variable production : bool.

Local Abbreviation proxy_call :=
  (mapToPropsProxy funs wrapped methodName displayName production).
Local Abbreviation proxy_calls :=
  (invocations funs wrapped methodName displayName production).

(** A first invocation followed by later ones, as one equation. *)
Lemma whole_life (n : nat) (x own : value) (later : list (value * value)) :
  let a0 := passed (getDependsOnOwnProps (funs wrapped)) x own in
  let f := resolved funs wrapped x own in
  let a1 := passed (getDependsOnOwnProps (funs f)) x own in
  let props := if is_function (fn_body (funs wrapped) a0)
               then fn_body (funs f) a1
               else fn_body (funs wrapped) a0 in
  let w1 := MkAdapter
              (MkProxy (UserFunction f) (getDependsOnOwnProps (funs f)))
              (Call wrapped a0 ::
                 (if is_function (fn_body (funs wrapped) a0)
                  then [Call f a1] else []))
              (diagnostics production methodName displayName props []) in
  proxy_call (S (S n)) x own initProxySelector = Some (props, w1)
  /\ proxy_calls (S (S n)) later w1
     = Some (results_of funs f later,
             MkAdapter (the_proxy w1) (calls w1 ++ calls_of funs f later)
                       (console w1)).
Proof.
  cbn zeta. split.
  - unfold initProxySelector.
    rewrite (WrapMapToPropsFacts.first_call funs wrapped methodName displayName
               production n x own [] []).
    reflexivity.
  - apply WrapMapToPropsFacts.later_calls; reflexivity.
Qed.

(** X1.  A wrapped function that does not return a function on the first
    invocation is called once in that invocation and stays in the slot:
    every invocation of the proxy, the first included, is one call of the
    wrapped function and returns what that call returns. *)
Theorem plain_function_called_once_per_invocation (n : nat) (x own : value)
        (later : list (value * value)) :
  is_function
    (fn_body (funs wrapped) (passed (getDependsOnOwnProps (funs wrapped)) x own))
  = false ->
  exists (props : value) (w1 : adapter) (results : list value) (w2 : adapter),
    proxy_call (S (S n)) x own initProxySelector = Some (props, w1)
    /\ proxy_calls (S (S n)) later w1 = Some (results, w2)
    /\ the_proxy w1
       = MkProxy (UserFunction wrapped) (getDependsOnOwnProps (funs wrapped))
    /\ the_proxy w2 = the_proxy w1
    /\ calls w2 = calls_of funs wrapped ((x, own) :: later)
    /\ props :: results = results_of funs wrapped ((x, own) :: later).
Proof.
  intros Hplain.
  destruct (whole_life n x own later) as [Hfirst Hlater]. cbn zeta in *.
  assert (Hres : resolved funs wrapped x own = wrapped).
  { unfold resolved.
    destruct (fn_body (funs wrapped) _); try reflexivity. discriminate. }
  rewrite Hplain, Hres in Hfirst, Hlater.
  do 4 eexists. split; [exact Hfirst|]. split; [exact Hlater|].
  repeat split; reflexivity.
Qed.

(** X2.  A wrapped function whose second parameter has a default value and
    which carries no [dependsOnOwnProps] has length 1: the proxy calls it
    with the state or dispatch alone in every invocation, so it only ever
    sees the default value of its second parameter. *)
Theorem default_parameter_hides_ownProps (n : nat) (x own : value)
        (later : list (value * value)) (ps : list formal) :
  fn_formals (funs wrapped) = Plain :: Defaulted :: ps ->
  fn_dependsOnOwnProps (funs wrapped) = VUndefined ->
  is_function (fn_body (funs wrapped) [x]) = false ->
  exists (props : value) (w1 : adapter) (results : list value) (w2 : adapter),
    proxy_call (S (S n)) x own initProxySelector = Some (props, w1)
    /\ proxy_calls (S (S n)) later w1 = Some (results, w2)
    /\ dependsOnOwnProps (the_proxy w2) = false
    /\ calls w2 = map (fun i => Call wrapped [fst i]) ((x, own) :: later).
Proof.
  intros Hformals Hflag Hplain.
  assert (Hdep : getDependsOnOwnProps (funs wrapped) = false).
  { unfold getDependsOnOwnProps, fn_length. rewrite Hflag, Hformals.
    reflexivity. }
  destruct (whole_life n x own later) as [Hfirst Hlater]. cbn zeta in *.
  assert (Hres : resolved funs wrapped x own = wrapped).
  { unfold resolved. rewrite Hdep. cbn [passed].
    destruct (fn_body (funs wrapped) [x]); try reflexivity. discriminate. }
  rewrite Hres, Hdep in Hfirst, Hlater. cbn [passed] in Hfirst, Hlater.
  rewrite Hplain in Hfirst, Hlater.
  do 4 eexists. split; [exact Hfirst|]. split; [exact Hlater|].
  split; [reflexivity|].
  cbn [calls app map fst]. f_equal.
  unfold calls_of. rewrite Hdep. reflexivity.
Qed.

(** X3.  Diagnostics are a matter of the first invocation only: later
    invocations of a proxy write nothing, and in a production build no
    invocation writes anything. *)
Theorem diagnostics_on_first_invocation_only (n : nat) (x own : value)
        (later : list (value * value)) :
  exists (props : value) (w1 : adapter) (results : list value) (w2 : adapter),
    proxy_call (S (S n)) x own initProxySelector = Some (props, w1)
    /\ proxy_calls (S (S n)) later w1 = Some (results, w2)
    /\ console w2 = console w1
    /\ (production = true -> console w2 = []).
Proof.
  destruct (whole_life n x own later) as [Hfirst Hlater]. cbn zeta in *.
  do 4 eexists. split; [exact Hfirst|]. split; [exact Hlater|].
  split; [reflexivity|].
  intros ->. reflexivity.
Qed.

End Facts.

(** X1 at [countAndId], a two-parameter function that is no factory. *)
Lemma plain_function_called_once_per_invocation_witness :
  exists (props : value) (w1 : adapter) (results : list value) (w2 : adapter),
    mapToPropsProxy Examples.table 1 "mapStateToProps" "Counter" false 2
                    Examples.count0 Examples.id7 initProxySelector
    = Some (props, w1)
    /\ invocations Examples.table 1 "mapStateToProps" "Counter" false 2
                   [(Examples.count1, Examples.id8)] w1
       = Some (results, w2)
    /\ the_proxy w1 = MkProxy (UserFunction 1) true
    /\ the_proxy w2 = the_proxy w1
    /\ calls w2 = [Call 1 [Examples.count0; Examples.id7];
                   Call 1 [Examples.count1; Examples.id8]]
    /\ props :: results
       = [VObj 11 [("count"%string, VNum 0); ("id"%string, VNum 7)];
          VObj 11 [("count"%string, VNum 1); ("id"%string, VNum 8)]].
Proof.
  exact (plain_function_called_once_per_invocation Examples.table 1
           "mapStateToProps" "Counter" false 0 Examples.count0 Examples.id7
           [(Examples.count1, Examples.id8)] eq_refl).
Defined.

(** X2 at [countAndDefaultedId]: the own props [{ id: 7 }] and [{ id: 8 }]
    never reach it. *)
Lemma default_parameter_hides_ownProps_witness :
  exists (props : value) (w1 : adapter) (results : list value) (w2 : adapter),
    mapToPropsProxy MoreExamples.table 8 "mapStateToProps" "Counter" false 2
                    Examples.count0 Examples.id7 initProxySelector
    = Some (props, w1)
    /\ invocations MoreExamples.table 8 "mapStateToProps" "Counter" false 2
                   [(Examples.count1, Examples.id8)] w1
       = Some (results, w2)
    /\ dependsOnOwnProps (the_proxy w2) = false
    /\ calls w2 = [Call 8 [Examples.count0]; Call 8 [Examples.count1]].
Proof.
  exact (default_parameter_hides_ownProps MoreExamples.table 8
           "mapStateToProps" "Counter" false 0 Examples.count0 Examples.id7
           [(Examples.count1, Examples.id8)] [] eq_refl eq_refl eq_refl).
Defined.

End WrapMapToPropsMore.

(* ================================================================== *)
(** * More facts about connect/mergeProps.js *)
(* ================================================================== *)

Module MergePropsMore.
Import Stateful MergeProps MergePropsFactories.

Section Facts.

Variable funs : nat -> func.
Variable mergeProps : nat.
Variable displayName : string.
Variable pure : bool.
Variable areMergedPropsEqual : value -> value -> bool.
Variable production : bool.

Local Abbreviation proxy_call :=
  (mergePropsProxy funs mergeProps displayName pure areMergedPropsEqual
                   production).
Local Abbreviation proxy_calls :=
  (mergePropsProxy_calls funs mergeProps displayName pure areMergedPropsEqual
                         production).

Local Abbreviation fresh := (Spec.fresh_result funs mergeProps).
Local Abbreviation asked := (Spec.merge_call mergeProps).

(** The first call of the wrapper. *)
Lemma mergePropsProxy_first (w : wrapper) (sp dp o : value) :
  hasRunOnce w = false ->
  proxy_call sp dp o w =
  (fresh (sp, dp, o),
   MkWrapper true (fresh (sp, dp, o)) (calls w ++ [asked (sp, dp, o)])
             (Spec.diagnostics production "mergeProps" displayName
                (fresh (sp, dp, o)) (console w))).
Proof.
  intros Hran. destruct w as [ran cached cs out]. cbn in Hran. subst ran.
  unfold mergePropsProxy, bind, call_mergeProps, gets, when, set_mergedProps,
    set_hasRunOnce, modify, ret, verifyPlainObject, Spec.diagnostics,
    Spec.fresh_result, Spec.merge_call.
  cbn [hasRunOnce mergedProps calls console fst snd].
  destruct production; cbn [negb]; [reflexivity|].
  destruct (fn_body (funs mergeProps) [sp; dp; o]); reflexivity.
Qed.

(** Calls whose results all equal the cached value leave it cached. *)
Lemma stable_calls (inputs : list (value * value * value)) :
  forall w : wrapper,
    hasRunOnce w = true ->
    pure = true ->
    (forall i, In i inputs ->
               areMergedPropsEqual (fresh i) (mergedProps w) = true) ->
    proxy_calls inputs w =
    (map (fun _ => mergedProps w) inputs,
     MkWrapper true (mergedProps w) (calls w ++ map asked inputs) (console w)).
Proof.
  induction inputs as [|[[sp dp] o] rest IH]; intros w Hran Hpure Hequal.
  - cbn. rewrite app_nil_r. destruct w as [ran c cs out].
    cbn in Hran. subst ran. reflexivity.
  - cbn [mergePropsProxy_calls]. unfold bind at 1.
    rewrite (MergePropsFacts.mergePropsProxy_after_first funs mergeProps
               displayName pure areMergedPropsEqual production w sp dp o Hran).
    cbn zeta.
    pose proof (Hequal (sp, dp, o) (or_introl eq_refl)) as Hhere.
    unfold Spec.fresh_result in Hhere. cbn [fst snd] in Hhere.
    replace (negb pure
             || negb (areMergedPropsEqual (fn_body (funs mergeProps) [sp; dp; o])
                        (mergedProps w)))
      with false by (rewrite Hpure, Hhere; reflexivity).
    unfold bind at 1. rewrite IH; try assumption; try reflexivity.
    + cbn [mergedProps calls console map]. unfold ret.
      rewrite <- app_assoc. reflexivity.
    + intros i Hi. cbn [mergedProps]. apply Hequal. right. exact Hi.
Qed.

(** X4.  In pure mode, while the user's [mergeProps] keeps giving results
    that [areMergedPropsEqual] holds equal to the first one, the wrapper
    keeps returning the first result itself: one object for the whole run,
    with one call of [mergeProps] per invocation and no diagnostic after
    the first invocation. *)
Theorem equal_results_keep_first_object (first : value * value * value)
        (later : list (value * value * value)) :
  pure = true ->
  (forall i, In i later -> areMergedPropsEqual (fresh i) (fresh first) = true) ->
  let out := proxy_calls (first :: later) initMergePropsProxy in
  fst out = map (fun _ => fresh first) (first :: later)
  /\ mergedProps (snd out) = fresh first
  /\ calls (snd out) = map asked (first :: later)
  /\ console (snd out)
     = Spec.diagnostics production "mergeProps" displayName (fresh first) [].
Proof.
  intros Hpure Hequal out.
  assert (E : out
              = (map (fun _ => fresh first) (first :: later),
                 MkWrapper true (fresh first) (map asked (first :: later))
                   (Spec.diagnostics production "mergeProps" displayName
                      (fresh first) []))).
  { subst out. destruct first as [[sp dp] o].
    cbn [mergePropsProxy_calls]. unfold bind at 1.
    rewrite mergePropsProxy_first by reflexivity.
    unfold bind at 1. rewrite stable_calls; try assumption; reflexivity. }
  rewrite E. repeat split; reflexivity.
Qed.

(** With [pure] false every call returns the fresh result. *)
Lemma impure_calls (inputs : list (value * value * value)) :
  pure = false ->
  forall w : wrapper,
  exists w' : wrapper,
    proxy_calls inputs w = (map fresh inputs, w')
    /\ calls w' = calls w ++ map asked inputs.
Proof.
  intros Hpure.
  induction inputs as [|[[sp dp] o] rest IH]; intros w.
  - exists w. cbn. rewrite app_nil_r. split; reflexivity.
  - cbn [mergePropsProxy_calls]. unfold bind at 1.
    assert (Hcall : exists w1 : wrapper,
               proxy_call sp dp o w = (fresh (sp, dp, o), w1)
               /\ calls w1 = calls w ++ [asked (sp, dp, o)]).
    { destruct (hasRunOnce w) eqn:Hran.
      - rewrite (MergePropsFacts.mergePropsProxy_after_first funs mergeProps
                   displayName pure areMergedPropsEqual production w sp dp o
                   Hran).
        cbn zeta.
        replace (negb pure
                 || negb (areMergedPropsEqual
                            (fn_body (funs mergeProps) [sp; dp; o])
                            (mergedProps w)))
          with true by (rewrite Hpure; reflexivity).
        eexists. split; reflexivity.
      - rewrite (mergePropsProxy_first w sp dp o Hran).
        eexists. split; reflexivity. }
    destruct Hcall as [w1 [-> Hcalls1]].
    destruct (IH w1) as [w2 [Hrest Hcalls2]].
    unfold bind at 1. rewrite Hrest. unfold ret.
    exists w2. split; [reflexivity|].
    rewrite Hcalls2, Hcalls1, <- app_assoc. reflexivity.
Qed.

(** X5.  With [pure] false the wrapper caches nothing that matters: from
    any state, every invocation returns what the user's [mergeProps] has
    just given. *)
Theorem impure_wrapper_returns_fresh_results
        (inputs : list (value * value * value)) (w : wrapper) :
  pure = false ->
  fst (proxy_calls inputs w) = map fresh inputs
  /\ calls (snd (proxy_calls inputs w)) = calls w ++ map asked inputs.
Proof.
  intros Hpure. destruct (impure_calls inputs Hpure w) as [w' [-> Hcalls]].
  split; [reflexivity|exact Hcalls].
Qed.

End Facts.

(** X6.  The two factories of the default export never both apply: a
    function goes to [wrapMergePropsFunc], a falsy value to
    [defaultMergeProps], and exactly the truthy values that are no function
    are declined by both. *)
Theorem merge_factories_are_exclusive (mergeProps : value) :
  (forall f, mergeProps = VFun f ->
             whenMergePropsIsFunction mergeProps = Some (InitMergePropsProxy f)
             /\ whenMergePropsIsOmitted mergeProps = None)
  /\ (Boolean mergeProps = false ->
      whenMergePropsIsFunction mergeProps = None
      /\ whenMergePropsIsOmitted mergeProps = Some InitDefaultMergeProps)
  /\ (map (fun factory => factory mergeProps) factories = [None; None]
      <-> Boolean mergeProps = true /\ is_function mergeProps = false).
Proof.
  split; [|split].
  - intros f ->. split; reflexivity.
  - intros Hfalsy. unfold whenMergePropsIsOmitted. rewrite Hfalsy.
    destruct mergeProps; try discriminate; split; reflexivity.
  - unfold factories, whenMergePropsIsOmitted. cbn [map].
    destruct (Boolean mergeProps) eqn:Htruthy; cbn [negb].
    + destruct mergeProps; cbn; split; intros E;
        try (split; reflexivity); try reflexivity; try discriminate.
      destruct E as [_ E]. discriminate.
    + split; [discriminate|]. intros [E _]. discriminate.
Qed.

(** X4 on two state-props objects with the same count: the results are
    two objects with the same properties, at addresses 110 and 112, and
    the wrapper returns the one at 110 both times. *)
Lemma equal_results_keep_first_object_witness :
  let out := mergePropsProxy_calls MoreExamples.functions 9 "Counter" true
               (Examples.same_fields ["count"%string; "id"%string]) false
               [(VObj 10 [("count"%string, VNum 0)], VObj 15 [], Examples.id7);
                (VObj 12 [("count"%string, VNum 0)], VObj 15 [], Examples.id7)]
               initMergePropsProxy in
  fst out = [VObj 110 [("count"%string, VNum 0); ("id"%string, VNum 7)];
             VObj 110 [("count"%string, VNum 0); ("id"%string, VNum 7)]]
  /\ Spec.fresh_result MoreExamples.functions 9
       (VObj 12 [("count"%string, VNum 0)], VObj 15 [], Examples.id7)
     = VObj 112 [("count"%string, VNum 0); ("id"%string, VNum 7)]
  /\ mergedProps (snd out)
     = VObj 110 [("count"%string, VNum 0); ("id"%string, VNum 7)].
Proof.
  cbv zeta.
  assert (Hall : forall i : value * value * value,
             In i [(VObj 12 [("count"%string, VNum 0)], VObj 15 [],
                    Examples.id7)] ->
             Examples.same_fields ["count"%string; "id"%string]
               (Spec.fresh_result MoreExamples.functions 9 i)
               (Spec.fresh_result MoreExamples.functions 9
                  (VObj 10 [("count"%string, VNum 0)], VObj 15 [],
                   Examples.id7))
             = true)
    by (intros i [<-|[]]; reflexivity).
  pose proof (equal_results_keep_first_object MoreExamples.functions 9
                "Counter" true
                (Examples.same_fields ["count"%string; "id"%string]) false
                (VObj 10 [("count"%string, VNum 0)], VObj 15 [], Examples.id7)
                [(VObj 12 [("count"%string, VNum 0)], VObj 15 [], Examples.id7)]
                eq_refl Hall) as H.
  cbv zeta in H. destruct H as [Hres [Hcached _]].
  split; [exact Hres|]. split; [reflexivity|exact Hcached].
Defined.

(** X5 on the same inputs with [pure] false: the two new objects come
    back as they are. *)
Lemma impure_wrapper_returns_fresh_results_witness :
  fst (mergePropsProxy_calls MoreExamples.functions 9 "Counter" false
         (Examples.same_fields ["count"%string; "id"%string]) false
         [(VObj 10 [("count"%string, VNum 0)], VObj 15 [], Examples.id7);
          (VObj 12 [("count"%string, VNum 0)], VObj 15 [], Examples.id7)]
         initMergePropsProxy)
  = [VObj 110 [("count"%string, VNum 0); ("id"%string, VNum 7)];
     VObj 112 [("count"%string, VNum 0); ("id"%string, VNum 7)]].
Proof.
  exact (proj1 (impure_wrapper_returns_fresh_results MoreExamples.functions 9
                  "Counter" false
                  (Examples.same_fields ["count"%string; "id"%string]) false
                  [(VObj 10 [("count"%string, VNum 0)], VObj 15 [],
                    Examples.id7);
                   (VObj 12 [("count"%string, VNum 0)], VObj 15 [],
                    Examples.id7)]
                  initMergePropsProxy eq_refl)).
Defined.

(** A property defined on a list is found there; the others are as they
    were. *)
Lemma lookup_define (name name' : string) (v : value)
      (fields : list (string * value)) :
  JsObject.lookup name (JsObject.define name' v fields)
  = if (name' =? name)%string then Some v else JsObject.lookup name fields.
Proof.
  unfold JsObject.lookup.
  induction fields as [|[k w] rest IH]; cbn [JsObject.define find fst snd].
  - destruct (String.eqb_spec name' name); reflexivity.
  - destruct (String.eqb_spec k name') as [->|Hk]; cbn [find fst snd].
    + destruct (String.eqb_spec name' name); reflexivity.
    + destruct (String.eqb_spec k name) as [->|Hk'].
      * destruct (String.eqb_spec name' name) as [->|_]; [congruence|].
        reflexivity.
      * exact IH.
Qed.

Lemma lookup_absent (name : string) (fields : list (string * value)) :
  ~ In name (map fst fields) -> JsObject.lookup name fields = None.
Proof.
  unfold JsObject.lookup.
  induction fields as [|[k w] rest IH]; intros Hnot; [reflexivity|].
  cbn [find fst snd map] in *.
  destruct (String.eqb_spec k name) as [->|Hk].
  - exfalso. apply Hnot. left. reflexivity.
  - apply IH. intros Hin. apply Hnot. right. exact Hin.
Qed.

Lemma lookup_cons (name k : string) (w : value)
      (rest : list (string * value)) :
  JsObject.lookup name ((k, w) :: rest)
  = if (k =? name)%string then Some w else JsObject.lookup name rest.
Proof.
  unfold JsObject.lookup. cbn [find fst snd].
  destruct (k =? name)%string; reflexivity.
Qed.

(** In [{ ...target, ...source }] a property of the source wins over one
    of the target. *)
Lemma lookup_spread (name : string) (source : list (string * value)) :
  NoDup (map fst source) ->
  forall target : list (string * value),
    JsObject.lookup name (JsObject.spread target source)
    = match JsObject.lookup name source with
      | Some v => Some v
      | None => JsObject.lookup name target
      end.
Proof.
  unfold JsObject.spread.
  induction source as [|[k w] rest IH]; intros Hnodup target; [reflexivity|].
  cbn [fold_left fst snd map] in *.
  inversion Hnodup as [|? ? Hfresh Hrest]; subst.
  rewrite (IH Hrest), lookup_define, lookup_cons.
  destruct (String.eqb_spec k name) as [->|Hk].
  - rewrite (lookup_absent name rest Hfresh). reflexivity.
  - reflexivity.
Qed.

(** X7.  [defaultMergeProps] builds a new object in which a property of
    [dispatchProps] wins over one of [stateProps], which wins over one of
    [ownProps]; a property of none of the three is not there. *)
Theorem defaultMergeProps_precedence (funs : nat -> func) (fresh : nat)
        (stateProps dispatchProps ownProps : value) (name : string) :
  NoDup (map fst (JsObject.own_enumerable funs stateProps)) ->
  NoDup (map fst (JsObject.own_enumerable funs dispatchProps)) ->
  NoDup (map fst (JsObject.own_enumerable funs ownProps)) ->
  exists fields : list (string * value),
    defaultMergeProps funs fresh stateProps dispatchProps ownProps
    = VObj fresh fields
    /\ JsObject.lookup name fields
       = match JsObject.lookup name (JsObject.own_enumerable funs dispatchProps) with
         | Some v => Some v
         | None =>
             match JsObject.lookup name (JsObject.own_enumerable funs stateProps) with
             | Some v => Some v
             | None =>
                 JsObject.lookup name (JsObject.own_enumerable funs ownProps)
             end
         end.
Proof.
  intros Hs Hd Ho. eexists. split; [reflexivity|].
  rewrite (lookup_spread name _ Hd), (lookup_spread name _ Hs),
    (lookup_spread name _ Ho).
  destruct (JsObject.lookup name (JsObject.own_enumerable funs ownProps));
    reflexivity.
Qed.

(** X7 on [{ count: 0, id: 1 }], [{ id: 2, go: 3 }] and [{ id: 7 }]: the
    merged [id] is the one of the dispatch props. *)
Lemma defaultMergeProps_precedence_witness :
  exists fields : list (string * value),
    defaultMergeProps Examples.table 30
      (VObj 10 [("count"%string, VNum 0); ("id"%string, VNum 1)])
      (VObj 15 [("id"%string, VNum 2); ("go"%string, VNum 3)])
      Examples.id7
    = VObj 30 fields
    /\ JsObject.lookup "id" fields = Some (VNum 2).
Proof.
  assert (Hpair : forall a b : string, a <> b -> NoDup [a; b]).
  { intros a b Hab. constructor; [|constructor; [|constructor]].
    - intros [E|[]]. apply Hab. symmetry. exact E.
    - intros []. }
  assert (Hone : forall a : string, NoDup [a]).
  { intros a. constructor; [intros []|constructor]. }
  exact (defaultMergeProps_precedence Examples.table 30
           (VObj 10 [("count"%string, VNum 0); ("id"%string, VNum 1)])
           (VObj 15 [("id"%string, VNum 2); ("go"%string, VNum 3)])
           Examples.id7 "id"
           (Hpair "count"%string "id"%string
              (fun E => match E in _ = s
                              return match s with
                                     | String "c" _ => True
                                     | _ => False
                                     end with
                        | eq_refl => I
                        end))
           (Hpair "id"%string "go"%string
              (fun E => match E in _ = s
                              return match s with
                                     | String "i" _ => True
                                     | _ => False
                                     end with
                        | eq_refl => I
                        end))
           (Hone "id"%string)).
Defined.

End MergePropsMore.

(* ================================================================== *)
(** * More facts about connect/selectorFactory.js *)
(* ================================================================== *)

Module SelectorFactoryMore.
Import Stateful SelectorFactory FinalPropsSelectorFactory Automation.

Lemma calls_to_app (k : callee_kind) (l l' : list invocation) :
  calls_to k (l ++ l') = calls_to k l + calls_to k l'.
Proof.
  unfold calls_to. rewrite filter_app, length_app. reflexivity.
Qed.

Section Facts.

Context {MS MD MG : Type}.
Context `{MapToProps MS} `{MapToProps MD} `{Merge MG}.

Variable dispatch : value.
Variable areStatesEqual areOwnPropsEqual areStatePropsEqual
  : value -> value -> bool.

Local Abbreviation pure_call :=
  (pureFinalPropsSelector dispatch areStatesEqual areOwnPropsEqual
                          areStatePropsEqual).
Local Abbreviation pure_calls :=
  (pureFinalPropsSelector_calls dispatch areStatesEqual areOwnPropsEqual
                                areStatePropsEqual).
Local Abbreviation selector :=
  (finalPropsSelector dispatch areStatesEqual areOwnPropsEqual
                      areStatePropsEqual).
Local Abbreviation selector_calls :=
  (finalPropsSelector_calls dispatch areStatesEqual areOwnPropsEqual
                            areStatePropsEqual).

Lemma selector_calls_cons (pure : bool) (s o : value)
      (rest : list (value * value)) (c : closure MS MD MG) :
  selector_calls pure ((s, o) :: rest) c
  = let (v, c1) := selector pure s o c in
    let (vs, c2) := selector_calls pure rest c1 in
    (v :: vs, c2).
Proof. reflexivity. Qed.

Lemma pure_calls_cons (s o : value) (rest : list (value * value))
      (c : closure MS MD MG) :
  pure_calls ((s, o) :: rest) c
  = let (v, c1) := pure_call s o c in
    let (vs, c2) := pure_calls rest c1 in
    (v :: vs, c2).
Proof. reflexivity. Qed.

(** What every call of the pure selector leaves behind. *)
Lemma after_call (c : closure MS MD MG) (s o : value) :
  hasRunAtLeastOnce (snd (pure_call s o c)) = true
  /\ state (snd (pure_call s o c)) = s
  /\ ownProps (snd (pure_call s o c)) = o
  /\ fst (pure_call s o c) = mergedProps (snd (pure_call s o c)).
Proof.
  destruct c as [ran s0 o0 sp dp mp ms md mg l]. destruct ran; run_selector.
  - destruct (areOwnPropsEqual o o0), (areStatesEqual s s0); cbn [negb andb];
      repeat step_selector; repeat split; reflexivity.
  - repeat step_selector. repeat split; reflexivity.
Qed.

(** X8.  The first call of the pure selector is a call of the impure one:
    both return the same value, make the same three calls and leave the
    three function objects in the same state. *)
Theorem first_pure_call_is_an_impure_call (ms : MS) (md : MD) (mg : MG)
        (s o : value) :
  let fresh := pureFinalPropsSelectorFactory ms md mg in
  let pure := selector true s o fresh in
  let impure := selector false s o fresh in
  fst pure = fst impure
  /\ log (snd pure) = log (snd impure)
  /\ mapStateToProps (snd pure) = mapStateToProps (snd impure)
  /\ mapDispatchToProps (snd pure) = mapDispatchToProps (snd impure)
  /\ mergeProps (snd pure) = mergeProps (snd impure).
Proof.
  cbv zeta. unfold finalPropsSelector, impureFinalPropsSelector,
    pureFinalPropsSelectorFactory.
  run_selector. repeat step_selector. repeat split; reflexivity.
Qed.

(** One call of the impure selector. *)
Lemma impure_call (c : closure MS MD MG) (s o : value) :
  exists made : list invocation,
    log (snd (selector false s o c)) = log c ++ made
    /\ map kind made = [KMapState; KMapDispatch; KMerge]
    /\ hasRunAtLeastOnce (snd (selector false s o c)) = hasRunAtLeastOnce c
    /\ state (snd (selector false s o c)) = state c
    /\ ownProps (snd (selector false s o c)) = ownProps c
    /\ stateProps (snd (selector false s o c)) = stateProps c
    /\ dispatchProps (snd (selector false s o c)) = dispatchProps c
    /\ mergedProps (snd (selector false s o c)) = mergedProps c.
Proof.
  destruct c as [ran s0 o0 sp dp mp ms md mg l].
  unfold finalPropsSelector, impureFinalPropsSelector. run_selector.
  repeat step_selector.
  eexists. split; [log_suffix|]. repeat split; reflexivity.
Qed.

(** X9.  The impure selector memoizes nothing: over any run of calls,
    whatever the arguments, each of the three functions is called once per
    call, and none of the variables of the pure selector is written. *)
Theorem impure_selector_recomputes_every_time
        (inputs : list (value * value)) :
  forall c : closure MS MD MG,
    let c' := snd (selector_calls false inputs c) in
    (forall k : callee_kind,
       calls_to k (log c') = calls_to k (log c) + List.length inputs)
    /\ hasRunAtLeastOnce c' = hasRunAtLeastOnce c
    /\ state c' = state c
    /\ ownProps c' = ownProps c
    /\ stateProps c' = stateProps c
    /\ dispatchProps c' = dispatchProps c
    /\ mergedProps c' = mergedProps c.
Proof.
  induction inputs as [|[s o] rest IH]; intros c; cbv zeta.
  - cbn. split; [intros k; lia|]. repeat split; reflexivity.
  - rewrite selector_calls_cons. cbn [List.length].
    destruct (impure_call c s o)
      as (made & Hlog & Hkinds & Hran & Hs & Ho & Hsp & Hdp & Hmp).
    destruct (selector false s o c) as [v c1]. cbn [snd] in *.
    specialize (IH c1). cbv zeta in IH.
    destruct (selector_calls false rest c1) as [vs c2]. cbn [snd] in *.
    destruct IH as (Hcount & Hran' & Hs' & Ho' & Hsp' & Hdp' & Hmp').
    split; [|repeat split; congruence].
    intros k. rewrite Hcount, Hlog, calls_to_app.
    assert (Hone : calls_to k made = 1).
    { unfold calls_to. rewrite <- (length_map kind).
      destruct made as [|a [|b [|d [|]]]]; try discriminate Hkinds.
      cbn in Hkinds. injection Hkinds as Ha Hb Hd.
      cbn [filter]. rewrite Ha, Hb, Hd. destruct k; reflexivity. }
    rewrite Hone. lia.
Qed.

(** X10.  Whatever branch a call of the pure selector takes, first call
    included, it sets [hasRunAtLeastOnce], leaves its two arguments in
    [state] and [ownProps], and returns exactly the value it leaves in
    [mergedProps]. *)
Theorem every_call_returns_what_it_caches (c : closure MS MD MG)
        (s o : value) :
  let out := pure_call s o c in
  hasRunAtLeastOnce (snd out) = true
  /\ state (snd out) = s
  /\ ownProps (snd out) = o
  /\ fst out = mergedProps (snd out).
Proof.
  cbv zeta. exact (after_call c s o).
Qed.

(** X11.  Calling the pure selector again with the arguments of the call
    before returns the same value without calling any of the three
    functions, provided the two comparisons hold each argument equal to
    itself. *)
Theorem repeated_arguments_hit_the_cache (c : closure MS MD MG)
        (s o : value) :
  areStatesEqual s s = true ->
  areOwnPropsEqual o o = true ->
  let once := pure_call s o c in
  let twice := pure_call s o (snd once) in
  fst twice = fst once
  /\ log (snd twice) = log (snd once)
  /\ mergedProps (snd twice) = mergedProps (snd once).
Proof.
  intros Hs Ho once twice. subst twice.
  destruct (after_call c s o) as (Hran & Hstate & Hown & Hres).
  fold once in Hran, Hstate, Hown, Hres.
  destruct once as [v c1]. cbn [fst snd] in *.
  destruct c1 as [ran s1 o1 sp dp mp ms md mg l].
  cbn [hasRunAtLeastOnce state ownProps mergedProps] in *. subst.
  run_selector. rewrite Hs, Ho. cbn. repeat split; reflexivity.
Qed.

(** One later call when [mapDispatchToProps] does not depend on own
    props. *)
Lemma dispatch_untouched (c : closure MS MD MG) (s o : value) :
  hasRunAtLeastOnce c = true ->
  Boolean (get_dependsOnOwnProps (mapDispatchToProps c)) = false ->
  hasRunAtLeastOnce (snd (pure_call s o c)) = true
  /\ mapDispatchToProps (snd (pure_call s o c)) = mapDispatchToProps c
  /\ dispatchProps (snd (pure_call s o c)) = dispatchProps c
  /\ calls_to KMapDispatch (log (snd (pure_call s o c)))
     = calls_to KMapDispatch (log c).
Proof.
  intros Hran Hflag. destruct c as [ran s0 o0 sp dp mp ms md mg l].
  cbn [hasRunAtLeastOnce mapDispatchToProps] in *. subst ran.
  run_selector.
  destruct (areOwnPropsEqual o o0), (areStatesEqual s s0); cbn [negb andb];
    repeat step_selector;
    try congruence;
    repeat split; try reflexivity;
    cbn [hasRunAtLeastOnce state ownProps stateProps dispatchProps
         mergedProps mapStateToProps mapDispatchToProps mergeProps log
         fst snd];
    rewrite ?calls_to_app; unfold calls_to; cbn; lia.
Qed.

(** X12.  A [mapDispatchToProps] whose [dependsOnOwnProps] is false once
    the selector has run is never called again: over any run of later
    calls, whatever changes, [dispatchProps] and the function object stay
    as they are. *)
Theorem independent_dispatch_props_are_computed_once
        (inputs : list (value * value)) :
  forall c : closure MS MD MG,
    hasRunAtLeastOnce c = true ->
    Boolean (get_dependsOnOwnProps (mapDispatchToProps c)) = false ->
    let c' := snd (pure_calls inputs c) in
    calls_to KMapDispatch (log c') = calls_to KMapDispatch (log c)
    /\ dispatchProps c' = dispatchProps c
    /\ mapDispatchToProps c' = mapDispatchToProps c.
Proof.
  induction inputs as [|[s o] rest IH]; intros c Hran Hflag; cbv zeta.
  - cbn. repeat split; reflexivity.
  - rewrite pure_calls_cons.
    destruct (dispatch_untouched c s o Hran Hflag)
      as (Hran1 & Hmd & Hdp & Hcount).
    destruct (pure_call s o c) as [v c1]. cbn [snd] in *.
    assert (Hflag1 : Boolean (get_dependsOnOwnProps (mapDispatchToProps c1))
                     = false) by (rewrite Hmd; exact Hflag).
    specialize (IH c1 Hran1 Hflag1). cbv zeta in IH.
    destruct (pure_calls rest c1) as [vs c2]. cbn [snd] in *.
    destruct IH as (Hcount' & Hdp' & Hmd').
    repeat split; congruence.
Qed.

(** X13.  When only the state changed and the new state props are held
    equal to the old ones, the selector returns the merged props it had,
    the same object, after a single call of [mapStateToProps]; what it
    keeps as [stateProps] is nevertheless the new value. *)
Theorem equal_state_props_keep_merged_props (c : closure MS MD MG)
        (nextState nextOwnProps : value) :
  hasRunAtLeastOnce c = true ->
  areOwnPropsEqual nextOwnProps (ownProps c) = true ->
  areStatesEqual nextState (state c) = false ->
  areStatePropsEqual
    (fst (invoke (mapStateToProps c) nextState nextOwnProps)) (stateProps c)
  = true ->
  let out := pure_call nextState nextOwnProps c in
  fst out = mergedProps c
  /\ mergedProps (snd out) = mergedProps c
  /\ dispatchProps (snd out) = dispatchProps c
  /\ stateProps (snd out)
     = fst (invoke (mapStateToProps c) nextState nextOwnProps)
  /\ log (snd out) = log c ++ [MapStateToProps nextState nextOwnProps].
Proof.
  intros Hran Ho Hs Hsp out. subst out.
  destruct c as [ran s0 o0 sp dp mp ms md mg l].
  cbn [hasRunAtLeastOnce state ownProps stateProps mapStateToProps
       mergedProps dispatchProps log] in *.
  subst ran. run_selector. rewrite Ho, Hs. cbn [negb andb].
  cbn [hasRunAtLeastOnce state ownProps stateProps dispatchProps mergedProps
       mapStateToProps mapDispatchToProps mergeProps log fst snd].
  destruct (invoke ms nextState nextOwnProps) as [v ms'].
  cbn [hasRunAtLeastOnce state ownProps stateProps dispatchProps mergedProps
       mapStateToProps mapDispatchToProps mergeProps log fst snd] in *.
  rewrite Hsp. cbn. repeat split; reflexivity.
Qed.

End Facts.

(** X11 on the connected counter: a second call with [{ count: 1 }] and
    [{ id: 8 }] returns the result of the first and calls nothing. *)
Lemma repeated_arguments_hit_the_cache_witness :
  fst (Examples.counterSelector Examples.count1 Examples.id8
         (snd (Examples.counterSelector Examples.count1 Examples.id8
                 Examples.connected)))
  = fst (Examples.counterSelector Examples.count1 Examples.id8
           Examples.connected)
  /\ log (snd (Examples.counterSelector Examples.count1 Examples.id8
                 (snd (Examples.counterSelector Examples.count1 Examples.id8
                         Examples.connected))))
     = log (snd (Examples.counterSelector Examples.count1 Examples.id8
                   Examples.connected)).
Proof.
  pose proof (repeated_arguments_hit_the_cache Examples.the_dispatch strict_eq
                (Examples.same_fields ["id"%string])
                (Examples.same_fields ["count"%string])
                Examples.connected Examples.count1 Examples.id8
                eq_refl eq_refl) as H.
  cbv zeta in H. destruct H as [Hres [Hlog _]].
  split; [exact Hres|exact Hlog].
Defined.

(** X12 on the component with the constant [mapDispatchToProps]: three
    later calls that change the state, the own props and both leave the
    one call of the first run. *)
Lemma independent_dispatch_props_are_computed_once_witness :
  calls_to KMapDispatch
    (log (snd (pureFinalPropsSelector_calls Examples.the_dispatch strict_eq
                 (Examples.same_fields ["id"%string])
                 (Examples.same_fields ["count"%string])
                 [(Examples.count1, Examples.id7);
                  (Examples.count1, Examples.id8);
                  (Examples.count0, Examples.id7)]
                 MoreExamples.plainConnected)))
  = 1.
Proof.
  exact (proj1 (independent_dispatch_props_are_computed_once
                  Examples.the_dispatch strict_eq
                  (Examples.same_fields ["id"%string])
                  (Examples.same_fields ["count"%string])
                  [(Examples.count1, Examples.id7);
                   (Examples.count1, Examples.id8);
                   (Examples.count0, Examples.id7)]
                  MoreExamples.plainConnected eq_refl eq_refl)).
Defined.

(** X13 on the connected counter: the store is replaced by another
    [{ count: 0 }]; the merged props stay the object of the first call. *)
Lemma equal_state_props_keep_merged_props_witness :
  fst (Examples.counterSelector Examples.count0' Examples.id7
         Examples.connected)
  = mergedProps Examples.connected
  /\ log (snd (Examples.counterSelector Examples.count0' Examples.id7
                 Examples.connected))
     = log Examples.connected
         ++ [MapStateToProps Examples.count0' Examples.id7].
Proof.
  pose proof (equal_state_props_keep_merged_props Examples.the_dispatch
                strict_eq (Examples.same_fields ["id"%string])
                (Examples.same_fields ["count"%string])
                Examples.connected Examples.count0' Examples.id7
                eq_refl eq_refl eq_refl eq_refl) as H.
  cbv zeta in H. destruct H as (Hres & _ & _ & _ & Hlog).
  split; [exact Hres|exact Hlog].
Defined.

Section Composed.

Context {MS MD : Type}.
Context `{MapToProps MS} `{MapToProps MD}.

Variable dispatch : value.
Variable areStatesEqual areOwnPropsEqual areStatePropsEqual
  : value -> value -> bool.

Local Abbreviation pure_call :=
  (pureFinalPropsSelector (MG := merge_object) dispatch areStatesEqual
     areOwnPropsEqual areStatePropsEqual).
Local Abbreviation pure_calls :=
  (pureFinalPropsSelector_calls (MG := merge_object) dispatch areStatesEqual
     areOwnPropsEqual areStatePropsEqual).

(** A call of a wrapper that has run, in pure mode. *)
Lemma merge_object_after_first (m : merge_object) (sp dp o : value) :
  MergeProps.hasRunOnce (mo_wrapper m) = true ->
  mo_pure m = true ->
  exists (kept : value) (m' : merge_object),
    invoke_merge m sp dp o = (kept, m')
    /\ mo_pure m' = true
    /\ mo_areMergedPropsEqual m' = mo_areMergedPropsEqual m
    /\ MergeProps.hasRunOnce (mo_wrapper m') = true
    /\ MergeProps.mergedProps (mo_wrapper m') = kept
    /\ (kept = MergeProps.mergedProps (mo_wrapper m)
        \/ mo_areMergedPropsEqual m kept
             (MergeProps.mergedProps (mo_wrapper m)) = false).
Proof.
  intros Hran Hpure. cbn [invoke_merge Merge_merge_object].
  unfold call_merge_object.
  rewrite (MergePropsFacts.mergePropsProxy_after_first (mo_funs m)
             (mo_mergeProps m) (mo_displayName m) (mo_pure m)
             (mo_areMergedPropsEqual m) (mo_production m) (mo_wrapper m)
             sp dp o Hran).
  cbn zeta. rewrite Hpure. cbn [negb orb].
  destruct (mo_areMergedPropsEqual m
              (fn_body (mo_funs m (mo_mergeProps m)) [sp; dp; o])
              (MergeProps.mergedProps (mo_wrapper m))) eqn:Hequal;
    cbn [negb]; do 2 eexists; (split; [reflexivity|]);
    cbn [mo_pure mo_areMergedPropsEqual mo_wrapper MergeProps.hasRunOnce
         MergeProps.mergedProps];
    repeat split; auto.
Qed.

(** The first call of a wrapper. *)
Lemma merge_object_first (m : merge_object) (sp dp o : value) :
  MergeProps.hasRunOnce (mo_wrapper m) = false ->
  exists (kept : value) (m' : merge_object),
    invoke_merge m sp dp o = (kept, m')
    /\ mo_pure m' = mo_pure m
    /\ mo_areMergedPropsEqual m' = mo_areMergedPropsEqual m
    /\ MergeProps.hasRunOnce (mo_wrapper m') = true
    /\ MergeProps.mergedProps (mo_wrapper m') = kept.
Proof.
  intros Hran. cbn [invoke_merge Merge_merge_object].
  unfold call_merge_object.
  rewrite (MergePropsMore.mergePropsProxy_first (mo_funs m)
             (mo_mergeProps m) (mo_displayName m) (mo_pure m)
             (mo_areMergedPropsEqual m) (mo_production m) (mo_wrapper m)
             sp dp o Hran).
  do 2 eexists. split; [reflexivity|]. repeat split; reflexivity.
Qed.

(** A later call of the selector keeps the two caches in agreement, and
    returns the object it had unless the comparison tells the new one
    apart. *)
Lemma agreeing_call (c : closure MS MD merge_object) (s o : value) :
  Spec.caches_agree c ->
  Spec.caches_agree (snd (pure_call s o c))
  /\ mo_areMergedPropsEqual (mergeProps (snd (pure_call s o c)))
     = mo_areMergedPropsEqual (mergeProps c)
  /\ (fst (pure_call s o c) = mergedProps c
      \/ mo_areMergedPropsEqual (mergeProps c) (fst (pure_call s o c))
           (mergedProps c) = false).
Proof.
  unfold Spec.caches_agree.
  destruct c as [ran s0 o0 sp dp mp ms md mg l].
  cbn [hasRunAtLeastOnce mergeProps mergedProps].
  intros (Hran & Hpure & Hwran & Hcache). subst ran mp.
  run_selector.
  destruct (areOwnPropsEqual o o0), (areStatesEqual s s0); cbn [negb andb];
    repeat (cbn [hasRunAtLeastOnce state ownProps stateProps dispatchProps
                 mergedProps mapStateToProps mapDispatchToProps mergeProps
                 log fst snd negb];
            match goal with
            | |- context [invoke ?f ?a ?b] => destruct (invoke f a b) eqn:?
            | |- context [invoke_merge mg ?a ?b ?d] =>
                let kept := fresh "kept" in
                let m' := fresh "m'" in
                let E := fresh "E" in
                destruct (merge_object_after_first mg a b d Hwran Hpure)
                  as (kept & m' & E & ? & ? & ? & ? & ?);
                rewrite E
            | |- context [if ?b then _ else _] => destruct b eqn:?
            end);
    cbn [hasRunAtLeastOnce state ownProps stateProps dispatchProps
         mergedProps mapStateToProps mapDispatchToProps mergeProps
         log fst snd];
    repeat split; auto; subst; auto.
Qed.

(** The first call brings the two caches into agreement. *)
Lemma agreeing_first_call (ms : MS) (md : MD) (mg : merge_object)
      (s o : value) :
  mo_pure mg = true ->
  MergeProps.hasRunOnce (mo_wrapper mg) = false ->
  Spec.caches_agree
    (snd (pure_call s o (pureFinalPropsSelectorFactory ms md mg)))
  /\ mo_areMergedPropsEqual
       (mergeProps (snd (pure_call s o (pureFinalPropsSelectorFactory ms md mg))))
     = mo_areMergedPropsEqual mg.
Proof.
  intros Hpure Hwran. unfold Spec.caches_agree, pureFinalPropsSelectorFactory.
  run_selector.
  repeat (cbn [hasRunAtLeastOnce state ownProps stateProps dispatchProps
               mergedProps mapStateToProps mapDispatchToProps mergeProps
               log fst snd negb];
          match goal with
          | |- context [invoke ?f ?a ?b] => destruct (invoke f a b) eqn:?
          | |- context [invoke_merge mg ?a ?b ?d] =>
              let kept := fresh "kept" in
              let m' := fresh "m'" in
              let E := fresh "E" in
              destruct (merge_object_first mg a b d Hwran)
                as (kept & m' & E & ? & ? & ? & ?);
              rewrite E
          end);
    cbn [hasRunAtLeastOnce state ownProps stateProps dispatchProps
         mergedProps mapStateToProps mapDispatchToProps mergeProps
         log fst snd];
    repeat split; auto; congruence.
Qed.

(** Over a run of later calls, starting from the merged props held. *)
Lemma agreeing_calls (inputs : list (value * value)) :
  forall c : closure MS MD merge_object,
    Spec.caches_agree c ->
    Spec.identity_kept_while_equal
      (mo_areMergedPropsEqual (mergeProps c))
      (mergedProps c :: fst (pure_calls inputs c)).
Proof.
  induction inputs as [|[s o] rest IH]; intros c Hagree; [exact I|].
  rewrite (pure_calls_cons dispatch areStatesEqual areOwnPropsEqual
             areStatePropsEqual).
  destruct (agreeing_call c s o Hagree) as (Hagree1 & Hequal & Hkept).
  pose proof (proj2 (proj2 (proj2
                (after_call dispatch areStatesEqual areOwnPropsEqual
                   areStatePropsEqual c s o)))) as Hcache.
  destruct (pure_call s o c) as [v c1]. cbn [fst snd] in *.
  specialize (IH c1 Hagree1). rewrite Hequal, <- Hcache in IH.
  destruct (pure_calls rest c1) as [vs c2]. cbn [fst snd] in *.
  split; [exact Hkept|exact IH].
Qed.

(** X14.  A pure selector whose [mergeProps] is a [mergePropsProxy] in
    pure mode hands out a new merged-props object only when
    [areMergedPropsEqual] tells it apart from the one handed out just
    before: over any run of calls, each result is the very object of the
    call before or is not equal to it. *)
Theorem merged_props_change_identity_only_when_unequal
        (ms : MS) (md : MD) (mg : merge_object)
        (inputs : list (value * value)) :
  mo_pure mg = true ->
  MergeProps.hasRunOnce (mo_wrapper mg) = false ->
  Spec.identity_kept_while_equal (mo_areMergedPropsEqual mg)
    (fst (pure_calls inputs (pureFinalPropsSelectorFactory ms md mg))).
Proof.
  intros Hpure Hwran. destruct inputs as [|[s o] rest]; [exact I|].
  rewrite (pure_calls_cons dispatch areStatesEqual areOwnPropsEqual
             areStatePropsEqual).
  destruct (agreeing_first_call ms md mg s o Hpure Hwran) as [Hagree Hequal].
  pose proof (proj2 (proj2 (proj2
                (after_call dispatch areStatesEqual areOwnPropsEqual
                   areStatePropsEqual
                   (pureFinalPropsSelectorFactory ms md mg) s o)))) as Hcache.
  destruct (pure_call s o (pureFinalPropsSelectorFactory ms md mg))
    as [v c1].
  cbn [fst snd] in *.
  pose proof (agreeing_calls rest c1 Hagree) as Hrest.
  rewrite Hequal, <- Hcache in Hrest.
  destruct (pure_calls rest c1) as [vs c2]. exact Hrest.
Qed.

End Composed.

(** X14 on three calls: a first one, one with another [{ count: 0 }] and
    another [{ id: 7 }], for which the new merged object at address 152 is
    dropped for the one at 151, and one with [{ count: 1 }]. *)
Lemma merged_props_change_identity_only_when_unequal_witness :
  let results :=
    fst (pureFinalPropsSelector_calls Examples.the_dispatch strict_eq
           strict_eq (Examples.same_fields ["count"%string])
           [(Examples.count0, Examples.id7);
            (Examples.count0', MoreExamples.id7');
            (Examples.count1, MoreExamples.id7')]
           (pureFinalPropsSelectorFactory MoreExamples.allocatingState
              MoreExamples.constantDispatch MoreExamples.allocatingMerge)) in
  results = [VObj 151 [("count"%string, VNum 0); ("id"%string, VNum 7)];
             VObj 151 [("count"%string, VNum 0); ("id"%string, VNum 7)];
             VObj 153 [("count"%string, VNum 1); ("id"%string, VNum 7)]]
  /\ Spec.identity_kept_while_equal
       (Examples.same_fields ["count"%string; "id"%string]) results.
Proof.
  cbv zeta. split; [reflexivity|].
  exact (merged_props_change_identity_only_when_unequal
           Examples.the_dispatch strict_eq strict_eq
           (Examples.same_fields ["count"%string])
           MoreExamples.allocatingState MoreExamples.constantDispatch
           MoreExamples.allocatingMerge
           [(Examples.count0, Examples.id7);
            (Examples.count0', MoreExamples.id7');
            (Examples.count1, MoreExamples.id7')]
           eq_refl eq_refl).
Defined.

End SelectorFactoryMore.

(* ================================================================== *)
(** * More facts about hooks/useSelector.js *)
(* ================================================================== *)

Module UseSelectorMore.
Import Stateful UseSelector Notifications Automation.

Section Facts.

Variable selectors : nat -> value -> completion.
Variable equalityFn : value -> value -> bool.
Variable capture_stack : string -> string.
Variable not_a_function : error.

Local Abbreviation render := (useSelector selectors capture_stack).
Local Abbreviation notify :=
  (checkForUpdates selectors equalityFn not_a_function).
Local Abbreviation notify_all :=
  (notifications selectors equalityFn not_a_function).

(** X15.  A render pass reads the refs and writes none of them, and it
    asks for no render, whether it returns or throws: what the consumer
    keeps changes only at commit and in the subscription callback. *)
Theorem render_pass_writes_nothing (h : hook) (selector : nat)
        (storeState : value) :
  let h' := snd (render selector storeState h) in
  latestSelector h' = latestSelector h
  /\ latestSelectedState h' = latestSelectedState h
  /\ latestSubscriptionCallbackError h' = latestSubscriptionCallbackError h
  /\ forceRender_calls h' = forceRender_calls h.
Proof.
  cbv zeta. destruct h as [e l v n cs]. run_hook.
  destruct (selector_differs selector l || _); cbn [fst snd].
  - destruct (selectors selector storeState); [|destruct e];
      repeat split; reflexivity.
  - repeat split; reflexivity.
Qed.

(** X16.  After a commit, a render pass with the committed selector
    returns the committed value, whatever the store holds by then and
    whatever error was stored before the commit, and it does not call the
    selector. *)
Theorem render_after_commit_reads_the_commit (h : hook) (selector : nat)
        (selectedState storeState : value) :
  let committed := snd (commit selector selectedState h) in
  render selector storeState committed = (Normal selectedState, committed)
  /\ latestSubscriptionCallbackError committed = None.
Proof.
  cbv zeta. destruct h as [e l v n cs]. run_hook.
  unfold selector_differs. rewrite Nat.eqb_refl. cbn. split; reflexivity.
Qed.

(** One notification to a mounted consumer. *)
Lemma notify_mounted (h : hook) (selector : nat) (storeState : value) :
  latestSelector h = Some selector ->
  latestSelector (snd (notify storeState h)) = Some selector
  /\ selector_calls (snd (notify storeState h))
     = selector_calls h ++ [Call selector [storeState]]
  /\ forceRender_calls h <= forceRender_calls (snd (notify storeState h))
  /\ forceRender_calls (snd (notify storeState h)) <= S (forceRender_calls h).
Proof.
  intros Hl. destruct h as [e l v n cs]. cbn [latestSelector] in Hl. subst l.
  run_hook.
  destruct (selectors selector storeState) as [new|err]; cbn [fst snd].
  - cbn [latestSelectedState].
    destruct (equalityFn new v); cbn; repeat split; lia.
  - cbn. repeat split; lia.
Qed.

(** X17.  Over any run of store notifications to a mounted consumer, the
    selector of the last commit is called once per notification on the
    state of that notification, the recorded selector stays, and
    [forceRender] is called at most once per notification. *)
Theorem notifications_call_the_committed_selector_once_each
        (storeStates : list value) :
  forall (h : hook) (selector : nat),
    latestSelector h = Some selector ->
    let h' := snd (notify_all storeStates h) in
    latestSelector h' = Some selector
    /\ selector_calls h'
       = selector_calls h ++ map (fun s => Call selector [s]) storeStates
    /\ forceRender_calls h <= forceRender_calls h'
    /\ forceRender_calls h' <= forceRender_calls h + List.length storeStates.
Proof.
  induction storeStates as [|s rest IH]; intros h selector Hl; cbv zeta.
  - cbn. rewrite app_nil_r. repeat split; try assumption; lia.
  - assert (Hcons : notify_all (s :: rest) h
                    = notify_all rest (snd (notify s h))).
    { cbn [notifications]. unfold bind.
      destruct (notify s h) as [[] h1]. reflexivity. }
    rewrite Hcons.
    destruct (notify_mounted h selector s Hl) as (Hl1 & Hcalls & Hlow & Hhigh).
    specialize (IH (snd (notify s h)) selector Hl1). cbv zeta in IH.
    destruct IH as (Hl' & Hcalls' & Hlow' & Hhigh').
    split; [exact Hl'|]. split.
    + rewrite Hcalls', Hcalls, <- app_assoc. reflexivity.
    + cbn [List.length]. split; lia.
Qed.


End Facts.

(** X17 on the counter: three notifications, of which only the one that
    brings [{ count: 1 }] asks for a render. *)
Lemma notifications_call_the_committed_selector_once_each_witness :
  selector_calls
    (snd (notifications Examples.selector_table refEquality
            Examples.calling_undefined
            [Examples.count0'; Examples.count1; Examples.count1]
            Examples.counter))
  = [Call 0 [Examples.count0']; Call 0 [Examples.count1];
     Call 0 [Examples.count1]]
  /\ forceRender_calls
       (snd (notifications Examples.selector_table refEquality
               Examples.calling_undefined
               [Examples.count0'; Examples.count1; Examples.count1]
               Examples.counter))
     <= 3.
Proof.
  pose proof (notifications_call_the_committed_selector_once_each
                Examples.selector_table refEquality
                Examples.calling_undefined
                [Examples.count0'; Examples.count1; Examples.count1]
                Examples.counter 0 eq_refl) as H.
  cbv zeta in H. destruct H as (_ & Hcalls & _ & Hhigh).
  split; [exact Hcalls|exact Hhigh].
Defined.


End UseSelectorMore.

(* ================================================================== *)
(** * Facts about hooks/useSelector.js with any thrown value *)
(* ================================================================== *)

Module UseSelectorGeneralFacts.
Import Stateful UseSelectorGeneral.

(** Unfolds the monadic code of the hook down to record updates. *)
Ltac run_general :=
  unfold useSelector, checkForUpdates, commit, call_selector, forceRender,
    set_latestSubscriptionCallbackError, set_latestSelector,
    set_latestSelectedState, bind, gets, modify, ret;
  cbn [latestSubscriptionCallbackError latestSelector latestSelectedState
       forceRender_calls selector_calls fst snd].

(** On selectors that are functions of the store state and throw [Error]
    objects, this module and [UseSelector] are the same code: a
    notification and a render pass of the one are those of the other. *)
Lemma checkForUpdates_of_lifted
      (selectors : nat -> value -> UseSelector.completion)
      (equalityFn : value -> value -> bool)
      (not_a_function : UseSelector.error) (storeState : value)
      (h : UseSelector.hook) :
  snd (checkForUpdates (lift_selectors selectors) equalityFn not_a_function
         storeState (lift_hook h))
  = lift_hook (snd (UseSelector.checkForUpdates selectors equalityFn
                      not_a_function storeState h)).
Proof.
  destruct h as [e l v n cs]. unfold lift_hook, lift_selectors.
  run_general.
  unfold UseSelector.checkForUpdates, UseSelector.call_selector,
    UseSelector.forceRender, UseSelector.set_latestSubscriptionCallbackError,
    UseSelector.set_latestSelectedState, bind, gets, modify, ret.
  cbn [UseSelector.latestSubscriptionCallbackError UseSelector.latestSelector
       UseSelector.latestSelectedState UseSelector.forceRender_calls
       UseSelector.selector_calls fst snd].
  destruct l as [selector|]; cbn [fst snd]; [|reflexivity].
  destruct (selectors selector storeState) as [new|err];
    cbn [lift_completion fst snd]; [|reflexivity].
  cbn [latestSelectedState UseSelector.latestSelectedState].
  destruct (equalityFn new v); reflexivity.
Qed.

Lemma useSelector_of_lifted
      (selectors : nat -> value -> UseSelector.completion)
      (capture_stack : string -> string) (ToString : value -> string)
      (cannot_read : string -> value -> UseSelector.error)
      (selector : nat) (storeState : value) (h : UseSelector.hook) :
  useSelector (lift_selectors selectors) capture_stack ToString cannot_read
    selector storeState (lift_hook h)
  = (lift_completion
       (fst (UseSelector.useSelector selectors capture_stack selector
               storeState h)),
     lift_hook (snd (UseSelector.useSelector selectors capture_stack selector
                       storeState h))).
Proof.
  destruct h as [e l v n cs]. unfold lift_hook, lift_selectors.
  run_general.
  unfold UseSelector.useSelector, UseSelector.call_selector, bind, gets, ret.
  cbn [UseSelector.latestSubscriptionCallbackError UseSelector.latestSelector
       UseSelector.latestSelectedState UseSelector.forceRender_calls
       UseSelector.selector_calls fst snd].
  assert (Hholds : holds_error match e with
                               | Some e0 => Some (ThrownError e0)
                               | None => None
                               end
                   = match e with Some _ => true | None => false end)
    by (destruct e; reflexivity).
  rewrite Hholds.
  destruct (UseSelector.selector_differs selector l
            || match e with Some _ => true | None => false end);
    cbn [fst snd]; [|reflexivity].
  destruct (selectors selector storeState) as [new|err];
    cbn [lift_completion fst snd message_text]; [reflexivity|].
  destruct e as [previous|]; reflexivity.
Qed.

Section Facts.

Variable selectors : list call -> nat -> value -> outcome.
Variable equalityFn : value -> value -> bool.
Variable capture_stack : string -> string.
Variable not_a_function : UseSelector.error.
Variable ToString : value -> string.
Variable cannot_read : string -> value -> UseSelector.error.

Local Abbreviation render :=
  (useSelector selectors capture_stack ToString cannot_read).
Local Abbreviation notify :=
  (checkForUpdates selectors equalityFn not_a_function).

(** A notification in which the selector throws. *)
Lemma notify_throwing (h : hook) (selector : nat) (storeState : value)
      (t : thrown) :
  latestSelector h = Some selector ->
  selectors (selector_calls h) selector storeState = Throws t ->
  snd (notify storeState h)
  = MkHook (Some t) (Some selector) (latestSelectedState h)
           (S (forceRender_calls h))
           (selector_calls h ++ [Call selector [storeState]]).
Proof.
  intros Hl Hsel. destruct h as [e l v n cs].
  cbn [latestSelector selector_calls] in *. subst l.
  run_general. rewrite Hsel. reflexivity.
Qed.

(** When what the selector throws inside [checkForUpdates] is truthy, it
    is stored, the cached selected state stays and [forceRender] is called
    once; the next render pass then calls its selector whichever it is. *)
Lemma truthy_throw_is_met_again (h : hook) (selector : nat)
      (storeState : value) (t : thrown) :
  latestSelector h = Some selector ->
  selectors (selector_calls h) selector storeState = Throws t ->
  truthy t = true ->
  latestSubscriptionCallbackError (snd (notify storeState h)) = Some t
  /\ latestSelectedState (snd (notify storeState h)) = latestSelectedState h
  /\ forceRender_calls (snd (notify storeState h)) = S (forceRender_calls h)
  /\ forall (selector' : nat) (storeState' : value),
       selector_calls (snd (render selector' storeState'
                              (snd (notify storeState h))))
       = selector_calls (snd (notify storeState h))
           ++ [Call selector' [storeState']].
Proof.
  intros Hl Hsel Htruthy.
  rewrite (notify_throwing h selector storeState t Hl Hsel).
  cbn [latestSubscriptionCallbackError latestSelectedState forceRender_calls
       selector_calls].
  repeat (split; [reflexivity|]).
  intros selector' storeState'. run_general.
  cbn [holds_error]. rewrite Htruthy, orb_true_r. cbn [fst snd].
  destruct (selectors _ selector' storeState') as [v|t'];
    cbn [fst snd selector_calls]; [reflexivity|].
  destruct (message_text ToString cannot_read t'); cbn [fst snd];
    [|reflexivity].
  cbn [latestSubscriptionCallbackError]. rewrite Htruthy.
  destruct (stack_text ToString cannot_read t); reflexivity.
Qed.

(** C9, where the code departs from it.  When what the selector throws
    inside [checkForUpdates] is falsy ([undefined], [null], [0], [NaN],
    the empty string, [false]), it is stored all the same, the cached
    selected state stays and [forceRender] is called once; but the render
    pass that follows reads the stored value as no error: with the
    committed selector it returns the cached selected state without
    calling the selector, so that nothing is raised again. *)
Theorem falsy_throw_is_not_raised_again (h : hook) (selector : nat)
        (storeState : value) (t : thrown) :
  latestSelector h = Some selector ->
  selectors (selector_calls h) selector storeState = Throws t ->
  truthy t = false ->
  let h' := snd (notify storeState h) in
  latestSubscriptionCallbackError h' = Some t
  /\ latestSelectedState h' = latestSelectedState h
  /\ forceRender_calls h' = S (forceRender_calls h)
  /\ forall storeState' : value,
       render selector storeState' h' = (Returns (latestSelectedState h), h').
Proof.
  intros Hl Hsel Hfalsy h'. subst h'.
  rewrite (notify_throwing h selector storeState t Hl Hsel).
  cbn [latestSubscriptionCallbackError latestSelectedState forceRender_calls].
  repeat (split; [reflexivity|]).
  intros storeState'. run_general.
  cbn [holds_error]. rewrite Hfalsy.
  unfold UseSelector.selector_differs. rewrite Nat.eqb_refl. reflexivity.
Qed.

(** X18.  A second notification with the store state of the first asks
    for no render and leaves the cached value and the stored error,
    provided the selector returns at the second notification the very
    value it returned at the first and [equalityFn] holds that value equal
    to itself. *)
Theorem repeated_notification_with_same_result_is_silent (h : hook)
        (selector : nat) (storeState selected : value) :
  latestSelector h = Some selector ->
  selectors (selector_calls h) selector storeState = Returns selected ->
  selectors (selector_calls h ++ [Call selector [storeState]]) selector
            storeState = Returns selected ->
  equalityFn selected selected = true ->
  let once := snd (notify storeState h) in
  let twice := snd (notify storeState once) in
  forceRender_calls twice = forceRender_calls once
  /\ latestSelectedState twice = latestSelectedState once
  /\ latestSubscriptionCallbackError twice
     = latestSubscriptionCallbackError once.
Proof.
  intros Hl Hfirst Hsecond Hrefl once twice. subst twice once.
  destruct h as [e l v n cs]. cbn [latestSelector selector_calls] in *.
  subst l. run_general. rewrite Hfirst. cbn [latestSelectedState].
  destruct (equalityFn selected v) eqn:Hequal; cbn; rewrite Hsecond;
    cbn [latestSelectedState].
  - rewrite Hequal. cbn. repeat split; reflexivity.
  - rewrite Hrefl. cbn. repeat split; reflexivity.
Qed.

End Facts.

(** C9 at a selector that throws [undefined]: the store loses its user
    during a notification; [undefined] is stored and a render is asked
    for, and that render returns ["alice"] from the cache, the selector
    not being called. *)
Lemma falsy_throw_is_not_raised_again_witness :
  let failed := snd (checkForUpdates MoreExamples.general_selectors
                       UseSelector.refEquality Examples.calling_undefined
                       Examples.count0 MoreExamples.quietGreeter) in
  latestSubscriptionCallbackError failed = Some (ThrownValue VUndefined)
  /\ forceRender_calls failed = 1
  /\ useSelector MoreExamples.general_selectors Examples.engine_stack
       MoreExamples.text_of MoreExamples.cannot_read 1 Examples.count0 failed
     = (Returns (VStr "alice"), failed)
  /\ selector_calls failed = [Call 1 [Examples.count0]].
Proof.
  cbv zeta.
  pose proof (falsy_throw_is_not_raised_again MoreExamples.general_selectors
                UseSelector.refEquality Examples.engine_stack
                Examples.calling_undefined MoreExamples.text_of
                MoreExamples.cannot_read MoreExamples.quietGreeter 1
                Examples.count0 (ThrownValue VUndefined)
                eq_refl eq_refl eq_refl) as H.
  cbv zeta in H. destruct H as (Hstored & _ & Hrender & Hread).
  split; [exact Hstored|]. split; [exact Hrender|].
  split; [exact (Hread Examples.count0)|reflexivity].
Defined.

(** X18 on the counter of [s => s.count]: [{ count: 1 }] notified twice
    asks for no render. *)
Lemma repeated_notification_with_same_result_is_silent_witness :
  forceRender_calls
    (snd (checkForUpdates MoreExamples.general_selectors
            UseSelector.refEquality Examples.calling_undefined
            Examples.count1
            (snd (checkForUpdates MoreExamples.general_selectors
                    UseSelector.refEquality Examples.calling_undefined
                    Examples.count1 MoreExamples.generalCounter))))
  = 0.
Proof.
  exact (proj1 (repeated_notification_with_same_result_is_silent
                  MoreExamples.general_selectors UseSelector.refEquality
                  Examples.calling_undefined MoreExamples.generalCounter 0
                  Examples.count1 (VNum 1) eq_refl eq_refl eq_refl eq_refl)).
Defined.

(** Outside the proviso of X18: the selector [s => ({ count: s.count })]
    returns a new object at each call, and under [refEquality] each of
    two notifications with the same store state asks for a render. *)
Example new_object_selector_rerenders_each_time :
  forceRender_calls
    (snd (checkForUpdates MoreExamples.general_selectors
            UseSelector.refEquality Examples.calling_undefined
            Examples.count1
            (snd (checkForUpdates MoreExamples.general_selectors
                    UseSelector.refEquality Examples.calling_undefined
                    Examples.count1 MoreExamples.objectCounter))))
  = 2.
Proof. reflexivity. Qed.

End UseSelectorGeneralFacts.
